(** * Endorsement distribution: CoSERV query resolution

    A shallow embedding of the Go sources of the endorsement-distribution
    service (internal/coserv/coserv.go, the two revisions of the store
    package and the HTTP handler) together with the properties of the
    design document that concern them.

    Conventions.  A Go [string] is a Rocq [string] (a sequence of bytes), a
    [[]byte] is a [list byte], an [int] is a [Z].  A nil slice and an empty
    slice are both the empty list: the sources only ever look at [len].  A
    function returning [(T, error)] returns a [result T].  Functions of the
    Go standard library and of third-party modules are fields of type
    classes; the properties hold for every implementation of them, and a
    reference implementation is given further down for the examples. *)

From Stdlib Require Import ZArith String Ascii List Bool Lia.
From stdpp Require Import base option list strings gmap pretty.

Set Warnings "-register-all".

Local Open Scope string_scope.
Local Open Scope list_scope.

(** ** Go values: bytes, errors, formatted printing *)

Definition bytes := list Byte.byte.

(** [[]byte(s)] and [string(b)]. *)
Definition bytes_of_string (s : string) : bytes := list_byte_of_string s.
Definition string_of_bytes (b : bytes) : string := string_of_list_byte b.

(** Operands of the formatting verbs used in the sources. *)
Inductive fmtArg :=
| ArgS (s : string)
| ArgD (n : Z)
| ArgX (b : bytes)
| ArgL (l : list string).

(** An [error] value.  [fmt_Errorf format args] is the value built by
    [fmt.Errorf(format, args...)] when the format has no verb [%w];
    [fmt_Errorf_w format args w] is the one built by
    [fmt.Errorf(format, args..., w)] when it has one, and wraps [w].
    [lib_error] stands for the error values that library packages hand
    out. *)
Inductive error :=
| errors_New (text : string)
| fmt_Errorf (format : string) (args : list fmtArg)
| fmt_Errorf_w (format : string) (args : list fmtArg) (w : error)
| lib_error (pkg text : string).

Inductive result (A : Type) :=
| Ok (a : A)
| Err (e : error).
Arguments Ok {A} a.
Arguments Err {A} e.

Definition is_Ok {A} (r : result A) : bool :=
  match r with Ok _ => true | Err _ => false end.

Definition bind_result {A B} (r : result A) (k : A -> result B) : result B :=
  match r with
  | Ok a => k a
  | Err e => Err e
  end.

(** [x, err := f(); if err != nil { return nil, wrap(err) }; k x] *)
Notation "'let?' x ':=' r 'orelse' wrap 'in' k" :=
  (match r with
   | Ok x => k
   | Err e => Err (wrap e)
   end)
  (at level 10, x name, r at level 100, wrap at level 100, k at level 200,
   only parsing).

(** Lower-case hexadecimal, two digits per byte: the verb [%x] on a byte
    slice. *)
Definition hexdigit (n : N) : ascii :=
  match n with
  | 0 => "0" | 1 => "1" | 2 => "2" | 3 => "3" | 4 => "4"
  | 5 => "5" | 6 => "6" | 7 => "7" | 8 => "8" | 9 => "9"
  | 10 => "a" | 11 => "b" | 12 => "c" | 13 => "d" | 14 => "e"
  | _ => "f"
  end%N%char.

Definition hex_byte (b : Byte.byte) : string :=
  let n := Byte.to_N b in
  String (hexdigit (n / 16)) (String (hexdigit (n mod 16)) "").

Fixpoint hex (b : bytes) : string :=
  match b with
  | [] => ""
  | x :: b' => hex_byte x +:+ hex b'
  end.

(** One operand under one verb. *)
Definition render (verb : ascii) (a : fmtArg) : string :=
  match verb, a with
  | "s"%char, ArgS s => s
  | "s"%char, ArgX b => string_of_bytes b
  | "d"%char, ArgD n => pretty n
  | "x"%char, ArgX b => hex b
  | "x"%char, ArgS s => hex (bytes_of_string s)
  | "s"%char, ArgL l => "[" +:+ String.concat " " l +:+ "]"
  | _, _ => "%!" +:+ String verb "(BADARG)"
  end.

(** [fmt.Sprintf] for the verbs [%s], [%d], [%x] and, in [fmt.Errorf],
    [%w], whose operand is passed already rendered. *)
Fixpoint Sprintf_w (format : string) (args : list fmtArg) (w : string) : string :=
  match format with
  | "" => ""
  | String "%" (String verb rest) =>
      if Ascii.eqb verb "w" then w +:+ Sprintf_w rest args w
      else match args with
           | a :: args' => render verb a +:+ Sprintf_w rest args' w
           | [] => "%!" +:+ String verb "(MISSING)" +:+ Sprintf_w rest [] w
           end
  | String c rest => String c (Sprintf_w rest args w)
  end.

Definition Sprintf (format : string) (args : list fmtArg) : string :=
  Sprintf_w format args "%!w(<nil>)".

(** The method [Error()]. *)
Fixpoint Error (e : error) : string :=
  match e with
  | errors_New text => text
  | fmt_Errorf format args => Sprintf format args
  | fmt_Errorf_w format args w => Sprintf_w format args (Error w)
  | lib_error _ text => text
  end.

(** The method [Unwrap()], nil on errors that wrap nothing. *)
Definition Unwrap (e : error) : option error :=
  match e with
  | fmt_Errorf_w _ _ w => Some w
  | _ => None
  end.

(** ** internal/coserv/coserv.go: the data model *)

Module ClassSelector.
Record t := mk { ClassID : bytes }.
End ClassSelector.

Module InstanceSelector.
Record t := mk { InstanceID : bytes }.
End InstanceSelector.

Module EnvironmentSelector.
Record t := mk {
  Class : list ClassSelector.t;
  Instance : list InstanceSelector.t
}.
End EnvironmentSelector.

Module QueryObject.
Record t := mk {
  ArtifactType : Z;
  EnvironmentSelector : EnvironmentSelector.t
}.
End QueryObject.

Module CoSERV.
Record t := mk {
  Profile : string;
  Query : QueryObject.t
}.

(** The zero value, as declared by [var coserv coserv.CoSERV]. *)
Definition zero : t :=
  mk "" (QueryObject.mk 0%Z (EnvironmentSelector.mk [] [])).
End CoSERV.

Module Artifact.
Record t := mk { Data : bytes }.
Definition zero : t := mk [].
End Artifact.

Module ResultObject.
Record t := mk {
  ArtifactType : Z;
  Artifacts : list Artifact.t
}.
End ResultObject.

Module CoSERVResult.
Record t := mk {
  Profile : string;
  Result : ResultObject.t
}.
End CoSERVResult.

(** A value of type [interface{}] as [json.Unmarshal] produces it; [F]
    is the type float64. *)
Inductive any (F : Type) :=
| any_nil
| any_bool (b : bool)
| any_float64 (f : F)
| any_string (s : string)
| any_slice (l : list (any F))
| any_map (m : gmap string (any F)).
Arguments any_nil {F}.
Arguments any_bool {F} b.
Arguments any_float64 {F} f.
Arguments any_string {F} s.
Arguments any_slice {F} l.
Arguments any_map {F} m.

(** The packages encoding/base64 and encoding/json, as far as the sources
    call them. *)
Class GoEncoding := {
  float64 : Type;
  (** the conversion [int(f)] *)
  int_of_float64 : float64 -> Z;
  (** [base64.StdEncoding.DecodeString] *)
  base64_DecodeString : string -> result bytes;
  (** [json.Unmarshal(data, &temp)] with [temp] a [map[string]interface{}] *)
  json_Unmarshal_map : bytes -> result (gmap string (any float64));
  (** [json.Unmarshal(data, &a)] with [a] a [[]string] *)
  json_Unmarshal_strings : bytes -> result (list string);
  (** [json.Marshal] of a [[]string] *)
  json_Marshal_strings : list string -> result bytes;
  (** [json.Marshal] of a [*CoSERVResult] *)
  json_Marshal_result : CoSERVResult.t -> result bytes
}.

(** *** The functions of package coserv *)

Module coserv.
Section Coserv.
Context {enc : GoEncoding}.

(** [strings.ReplaceAll(s, old, new)] for one-byte [old] and [new]. *)
Fixpoint strings_ReplaceAll (s : string) (old new : ascii) : string :=
  match s with
  | "" => ""
  | String c s' =>
      String (if Ascii.eqb c old then new else c) (strings_ReplaceAll s' old new)
  end.

(** [for len(encoded)%4 != 0 { encoded += "=" }], unrolled [fuel]
    times. *)
Fixpoint pad_loop (fuel : nat) (encoded : string) : string :=
  match fuel with
  | O => encoded
  | S fuel' =>
      if decide (String.length encoded mod 4 ≠ 0)%nat
      then pad_loop fuel' (encoded +:+ "=")
      else encoded
  end.

(** FromCBOR decodes CBOR data into CoSERV structure.  The receiver [c]
    is updated in place: the function returns the error (nil is [None])
    and the receiver as it is left. *)
Definition FromCBOR (c : CoSERV.t) (data : bytes) : option error * CoSERV.t :=
  match json_Unmarshal_map data with
  | Ok temp =>
      let c :=
        match temp !! "0" with
        | Some (any_string profile) => CoSERV.mk profile (CoSERV.Query c)
        | _ => c
        end in
      let c :=
        match temp !! "1" with
        | Some (any_map queryData) =>
            match queryData !! "0" with
            | Some (any_float64 artifactType) =>
                CoSERV.mk (CoSERV.Profile c)
                  (QueryObject.mk (int_of_float64 artifactType)
                     (QueryObject.EnvironmentSelector (CoSERV.Query c)))
            | _ => c
            end
        | _ => c
        end in
      (None, c)
  | Err _ => (Some (fmt_Errorf "failed to parse CoSERV data" []), c)
  end.

(** FromBase64Url decodes a base64url-encoded CoSERV query. *)
Definition FromBase64Url (c : CoSERV.t) (encoded : string)
  : option error * CoSERV.t :=
  let encoded := strings_ReplaceAll encoded "-" "+" in
  let encoded := strings_ReplaceAll encoded "_" "/" in
  let encoded := pad_loop 3 encoded in
  match base64_DecodeString encoded with
  | Err err => (Some (fmt_Errorf_w "failed to decode base64: %w" [] err), c)
  | Ok data => FromCBOR c data
  end.

(** GetProfile returns the profile from the CoSERV query. *)
Definition GetProfile (c : CoSERV.t) : result string :=
  if decide (CoSERV.Profile c = "")
  then Err (fmt_Errorf "profile not found in CoSERV query" [])
  else Ok (CoSERV.Profile c).

(** hash generates a simple hash of the environment selector. *)
Definition hash (es : EnvironmentSelector.t) : bytes :=
  match EnvironmentSelector.Class es with
  | class0 :: _ => ClassSelector.ClassID class0
  | [] =>
      match EnvironmentSelector.Instance es with
      | instance0 :: _ => InstanceSelector.InstanceID instance0
      | [] => bytes_of_string "default"
      end
  end.

(** GenerateKey generates a database key from the CoSERV query. *)
Definition GenerateKey (c : CoSERV.t) (tenantID : string) : result string :=
  let? profile := GetProfile c orelse id in
  let key :=
    Sprintf "coserv://%s/%s/%d/%x"
      [ArgS tenantID; ArgS profile;
       ArgD (QueryObject.ArtifactType (CoSERV.Query c));
       ArgX (hash (QueryObject.EnvironmentSelector (CoSERV.Query c)))] in
  Ok key.

(** CreateResult creates a CoSERV result from artifacts: the slice is
    made with [len(artifacts)] zero entries and filled by index. *)
Definition CreateResult (profile : string) (artifactType : Z)
    (artifacts : list bytes) : CoSERVResult.t :=
  let made := replicate (length artifacts) Artifact.zero in
  let filled :=
    foldl (fun acc ia => <[ia.1 := Artifact.mk ia.2]> acc) made
          (imap pair artifacts) in
  CoSERVResult.mk profile (ResultObject.mk artifactType filled).

(** ToCBOR converts the result to CBOR format. *)
Definition ToCBOR (r : CoSERVResult.t) : result bytes :=
  json_Marshal_result r.
End Coserv.
End coserv.

(** ** Package store: the store and the distributor

    The two revisions of the package declare the same [Store] interface and
    the same [PostgresStore]; they differ in [GetEndorsements] and in the
    key generator it calls. *)

(** The argument of [Get] and [Set], which the interface declares a
    [string]: the column kv_key is text.  [key_arg] is the key as the
    operand of the verb [%s]. *)
Class GoKey (K : Type) := {
  key_eq_dec :: EqDecision K;
  key_arg : K -> fmtArg
}.

#[global] Instance string_GoKey : GoKey string := {| key_arg := ArgS |}.

(** The later revision of [GetEndorsements] passes to [Get] the value its
    key generator returned, a [[]string]: a call that is not well typed in
    the source.  This instance only lets a PostgresStore stand where that
    revision names its store; no property of the store is stated at this
    instance, and the store is read at the keys the interface declares. *)
#[global] Instance strings_GoKey : GoKey (list string) := {| key_arg := ArgL |}.

(** Store interface for database operations.  [Set_] and [Close] return
    the error (nil is [None]) and the store as it is left. *)
Module Store.
Class t (K S : Type) := {
  Get : S -> K -> result (list bytes);
  Set_ : S -> K -> list bytes -> option error * S;
  Close : S -> option error * S
}.
End Store.

(** The calls to the database that can fail. *)
Inductive dbCall :=
| pool_Query
| rows_Scan
| pool_Begin
| tx_Exec_delete
| tx_Exec_insert
| tx_Commit.

(** PostgresStore implements Store interface using PostgreSQL: the rows
    (kv_key, kv_val) of the table endorsements, and the error, if any, with
    which the database answers each kind of call. *)
Module PostgresStore.
Record t (K : Type) := mk {
  endorsements : list (K * string);
  failing : dbCall -> option error
}.
Arguments mk {K} endorsements failing.
Arguments endorsements {K} _.
Arguments failing {K} _.
End PostgresStore.

Module store.
Section Postgres.
Context {enc : GoEncoding} {K : Type} {gokey : GoKey K}.

(** encodeArtifact encodes artifact data to base64 (sic). *)
Definition encodeArtifact (data : bytes) : string :=
  Sprintf "%x" [ArgX data].

(** decodeArtifact decodes artifact data from base64 (sic). *)
Definition decodeArtifact (encoded : string) : result bytes :=
  Ok (bytes_of_string encoded).

(** [for _, artifactStr := range artifactArray], appending to [artifacts]. *)
Fixpoint decode_loop (artifactArray : list string) (artifacts : list bytes)
  : result (list bytes) :=
  match artifactArray with
  | [] => Ok artifacts
  | artifactStr :: rest =>
      let? artifact := decodeArtifact artifactStr
        orelse fmt_Errorf_w "failed to decode artifact: %w" [] in
      decode_loop rest (artifacts ++ [artifact])
  end.

(** [for rows.Next()], over the values of the selected rows. *)
Fixpoint rows_loop (s : PostgresStore.t K) (rows : list string)
    (artifacts : list bytes) : result (list bytes) :=
  match rows with
  | [] => Ok artifacts
  | val :: rest =>
      match PostgresStore.failing s rows_Scan with
      | Some err => Err (fmt_Errorf_w "failed to scan row: %w" [] err)
      | None =>
          let? artifactArray := json_Unmarshal_strings (bytes_of_string val)
            orelse fmt_Errorf_w "failed to unmarshal artifacts: %w" [] in
          let? artifacts := decode_loop artifactArray artifacts orelse id in
          rows_loop s rest artifacts
      end
  end.

(** [SELECT kv_val FROM endorsements WHERE kv_key = $1] *)
Definition select_kv_val (s : PostgresStore.t K) (key : K) : list string :=
  (filter (fun row => row.1 = key) (PostgresStore.endorsements s)).*2.

(** Get retrieves artifacts for a given key. *)
Definition Get (s : PostgresStore.t K) (key : K) : result (list bytes) :=
  match PostgresStore.failing s pool_Query with
  | Some err => Err (fmt_Errorf_w "failed to query database: %w" [] err)
  | None =>
      let? artifacts := rows_loop s (select_kv_val s key) [] orelse id in
      if decide (length artifacts = 0%nat)
      then Err (fmt_Errorf "no artifacts found for key: %s" [key_arg key])
      else Ok artifacts
  end.

(** Set stores artifacts for a given key.  A transaction that does not
    commit is rolled back: the table is left as it was. *)
Definition Set_ (s : PostgresStore.t K) (key : K) (artifacts : list bytes)
  : option error * PostgresStore.t K :=
  let artifactStrings :=
    foldl (fun acc artifact => acc ++ [encodeArtifact artifact]) [] artifacts in
  match json_Marshal_strings artifactStrings with
  | Err err => (Some (fmt_Errorf_w "failed to marshal artifacts: %w" [] err), s)
  | Ok val =>
  match PostgresStore.failing s pool_Begin with
  | Some err => (Some (fmt_Errorf_w "failed to begin transaction: %w" [] err), s)
  | None =>
  match PostgresStore.failing s tx_Exec_delete with
  | Some err =>
      (Some (fmt_Errorf_w "failed to delete existing artifacts: %w" [] err), s)
  | None =>
  let deleted := filter (fun row => row.1 ≠ key) (PostgresStore.endorsements s) in
  match PostgresStore.failing s tx_Exec_insert with
  | Some err => (Some (fmt_Errorf_w "failed to insert artifacts: %w" [] err), s)
  | None =>
  let inserted := deleted ++ [(key, string_of_bytes val)] in
  match PostgresStore.failing s tx_Commit with
  | Some err => (Some err, s)
  | None => (None, PostgresStore.mk inserted (PostgresStore.failing s))
  end end end end end.

(** Close closes the database connection. *)
Definition Close (s : PostgresStore.t K) : option error * PostgresStore.t K :=
  (None, s).

#[global] Instance PostgresStore_Store : Store.t K (PostgresStore.t K) :=
  {| Store.Get := Get; Store.Set_ := Set_; Store.Close := Close |}.
End Postgres.

Section Distributor.
Context {enc : GoEncoding} {S : Type} {st : Store.t string S}.

(** GetEndorsements retrieves endorsements for a CoSERV query (the
    revision on package internal/coserv).  [ed] is the store of the
    distributor. *)
Definition GetEndorsements (ed : S) (tenantID coservQuery mediaType : string)
  : result bytes :=
  match coserv.FromBase64Url CoSERV.zero coservQuery with
  | (Some err, _) => Err (fmt_Errorf_w "failed to parse CoSERV query: %w" [] err)
  | (None, c) =>
      let? key := coserv.GenerateKey c tenantID
        orelse fmt_Errorf_w "failed to generate key: %w" [] in
      let? artifacts := Store.Get ed key
        orelse fmt_Errorf_w "failed to get artifacts: %w" [] in
      let? profile := coserv.GetProfile c
        orelse fmt_Errorf_w "failed to get profile: %w" [] in
      let result :=
        coserv.CreateResult profile
          (QueryObject.ArtifactType (CoSERV.Query c)) artifacts in
      let? resultData := coserv.ToCBOR result
        orelse fmt_Errorf_w "failed to encode result: %w" [] in
      Ok resultData
  end.
End Distributor.
End store.

(** ** Package store, the revision on github.com/veraison/corim *)

(** Modelled from the spec: the artifact type of the library package
    coserv, whose declaration is not part of the sources: an enumeration
    of reference values, trust anchors and endorsed values.
    [ArtifactTypeOther] is any further value of the underlying integer
    type; the switch of [GenerateKey] has no case for it. *)
Inductive ArtifactType :=
| ArtifactTypeEndorsedValues
| ArtifactTypeTrustAnchors
| ArtifactTypeReferenceValues
| ArtifactTypeOther (n : Z).

(** The types of package comid that the sources only pass around. *)
Class CorimTypes := {
  (** [comid.ClassID] *)
  ClassID : Type;
  (** [comid.ImplID] *)
  ImplID : Type;
  (** [comid.Instance] *)
  Instance : Type;
  (** the value [CreateResult] returns *)
  CoservResult : Type
}.

Module comid.
(** [comid.Class]: the field [ClassID] is a pointer, nil is [None]. *)
Record Class {types : CorimTypes} := mkClass { Class_ClassID : option ClassID }.
Arguments mkClass {types} Class_ClassID.
End comid.

Module Coserv.
(** [coserv.Coserv], the fields the sources read.  The two selector lists
    are pointers to slices, nil is [None]. *)
Record EnvironmentSelector {types : CorimTypes} := mkEnvironmentSelector {
  Classes : option (list comid.Class);
  Instances : option (list Instance)
}.
Arguments mkEnvironmentSelector {types} Classes Instances.
Record Query {types : CorimTypes} := mkQuery {
  Query_ArtifactType : ArtifactType;
  Query_EnvironmentSelector : EnvironmentSelector
}.
Arguments mkQuery {types} Query_ArtifactType Query_EnvironmentSelector.
Record t {types : CorimTypes} := mk { Coserv_Query : Query }.
Arguments mk {types} Coserv_Query.
End Coserv.

(** The functions of github.com/veraison/corim and
    github.com/veraison/services that the sources call, the constant
    [SchemeName] and the functions [GetProfile], [CreateResult] and [ToCBOR]
    of this revision, whose declarations are not part of the sources. *)
Class Corim {types : CorimTypes} := {
  (** the method [FromBase64Url] of [coserv.Coserv], on a zero receiver *)
  Coserv_FromBase64Url : string -> result Coserv.t;
  (** the method [GetImplID] of [comid.ClassID] *)
  ClassID_GetImplID : ClassID -> result ImplID;
  (** [comid.ImplID.String] *)
  ImplID_String : ImplID -> string;
  (** [comid.Instance.GetUEID] *)
  Instance_GetUEID : Instance -> result bytes;
  (** [base64.StdEncoding.EncodeToString] *)
  base64_EncodeToString : bytes -> string;
  (** [arm.RefValLookupKey] *)
  arm_RefValLookupKey : string -> string -> string -> string;
  (** [arm.TaCoservLookupKey] *)
  arm_TaCoservLookupKey : string -> string -> string -> string;
  SchemeName : string;
  GetProfile : result string;
  Coserv_CreateResult :
    Coserv.t -> string -> ArtifactType -> list bytes -> CoservResult;
  CoservResult_ToCBOR : CoservResult -> result bytes
}.

Module synth.
Section Synth.
Context {types : CorimTypes} {corim : Corim}.

Definition extractImplID (c : comid.Class) : result string :=
  match comid.Class_ClassID c with
  | None => Err (errors_New "missing class-id")
  | Some classID =>
      let? implID := ClassID_GetImplID classID
        orelse fmt_Errorf_w
                 "could not extract implementation-id from class-id: %w" [] in
      Ok (ImplID_String implID)
  end.

Definition extractInstID (i : Instance) : result string :=
  let? instID := Instance_GetUEID i
    orelse fmt_Errorf_w
             "could not extract implementation-id from instance-id: %w" [] in
  Ok (base64_EncodeToString instID).

(** [for i, v := range *s.Classes], from index [i] on, appending to
    [keys]. *)
Fixpoint classes_loop (tenantID : string) (i : nat)
    (classes : list comid.Class) (keys : list string) : result (list string) :=
  match classes with
  | [] => Ok keys
  | v :: rest =>
      let? implID := extractImplID v
        orelse fmt_Errorf_w "creating lookup key for class[%d]: %w"
                 [ArgD (Z.of_nat i)] in
      classes_loop tenantID (S i) rest
        (keys ++ [arm_RefValLookupKey SchemeName tenantID implID])
  end.

(** [for i, v := range *s.Instances], likewise. *)
Fixpoint instances_loop (tenantID : string) (i : nat)
    (instances : list Instance) (keys : list string) : result (list string) :=
  match instances with
  | [] => Ok keys
  | v :: rest =>
      let? instID := extractInstID v
        orelse fmt_Errorf_w "creating lookup key for instance[%d]: %w"
                 [ArgD (Z.of_nat i)] in
      instances_loop tenantID (S i) rest
        (keys ++ [arm_TaCoservLookupKey SchemeName tenantID instID])
  end.

(** GenerateKey generates lookup keys for a given tenant and CoSERV query.
    It synthesizes keys based on the artifact type and environment
    selector. *)
Definition GenerateKey (tenantID : string) (query : string)
  : result (list string) :=
  let? q := Coserv_FromBase64Url query orelse id in
  let keys := [] in
  let s := Coserv.Query_EnvironmentSelector (Coserv.Coserv_Query q) in
  match Coserv.Query_ArtifactType (Coserv.Coserv_Query q) with
  | ArtifactTypeReferenceValues =>
      match Coserv.Classes s with
      | Some classes => classes_loop tenantID 0 classes keys
      | None => Ok keys
      end
  | ArtifactTypeTrustAnchors =>
      match Coserv.Instances s with
      | Some instances => instances_loop tenantID 0 instances keys
      | None => Ok keys
      end
  | ArtifactTypeEndorsedValues =>
      Err (fmt_Errorf "CCA does not implement endorsed value queries" [])
  | ArtifactTypeOther _ => Ok keys
  end.

Context {S : Type} {st : Store.t (list string) S}.

(** GetEndorsements retrieves endorsements for a CoSERV query.  The second
    component lists the arguments of the calls made to [ed.store.Get], in
    order.

    The source is as in the text up to the key synthesis.  Its next
    statement, [ed.store.Get(key)], passes the [[]string] that
    [GenerateKey] returned where [Get] is declared with one [string], and
    is not well typed; the definition writes the statement down as it
    reads, over a store that takes that argument, so that the function has
    a type.  What the source would do from that call on is not settled by
    its text, and the properties below are about the path that ends before
    it. *)
Definition GetEndorsements (ed : S) (tenantID coservQuery mediaType : string)
  : result bytes * list (list string) :=
  match Coserv_FromBase64Url coservQuery with
  | Err err => (Err (fmt_Errorf_w "failed to parse CoSERV query: %w" [] err), [])
  | Ok c =>
  match GenerateKey tenantID coservQuery with
  | Err err => (Err (fmt_Errorf_w "failed to generate key: %w" [] err), [])
  | Ok key =>
  match Store.Get ed key with
  | Err err => (Err (fmt_Errorf_w "failed to get artifacts: %w" [] err), [key])
  | Ok artifacts =>
  match GetProfile with
  | Err err => (Err (fmt_Errorf_w "failed to get profile: %w" [] err), [key])
  | Ok profile =>
  let result :=
    Coserv_CreateResult c profile
      (Coserv.Query_ArtifactType (Coserv.Coserv_Query c)) artifacts in
  match CoservResult_ToCBOR result with
  | Err err => (Err (fmt_Errorf_w "failed to encode result: %w" [] err), [key])
  | Ok resultData => (Ok resultData, [key])
  end end end end end.
End Synth.
End synth.

(** ** Package api: the HTTP handler *)

(** Error values are pointers.  An error in memory is the chain of objects
    reached from it by [Unwrap], outermost first, each with its address;
    the objects of an error are allocated innermost first, each at the next
    free address. *)
Definition errchain := list (nat * error).

Fixpoint on_heap (next : nat) (e : error) : errchain * nat :=
  match e with
  | fmt_Errorf_w _ _ w =>
      let '(inner, next') := on_heap next w in
      ((next', e) :: inner, S next')
  | _ => ([(next, e)], S next)
  end.

(** [errors.New(text)]: a new object at the next free address. *)
Definition errors_New_at (next : nat) (text : string) : (nat * error) * nat :=
  ((next, errors_New text), S next).

(** [errors.Is(err, target)]: [err == target] is the comparison of two
    pointers; none of the error types involved has a method [Is]. *)
Fixpoint errors_Is (err : errchain) (target : nat * error) : bool :=
  match err with
  | [] => false
  | (p, _) :: unwrapped =>
      if decide (p = target.1) then true else errors_Is unwrapped target
  end.

(** The functions of github.com/gin-gonic/gin, strings and strconv that
    the handler calls and that are not written out below. *)
Class GoHTTP := {
  (** [c.NegotiateFormat(offered...)], from the Accept header *)
  NegotiateFormat : string -> list string -> string;
  strings_TrimSpace : string -> string;
  (** the verb [%q] on a string *)
  strconv_Quote : string -> string
}.

Module Request.
(** What the handler reads of the request: [c.GetHeader("Accept")] and
    [c.Param("query")]. *)
Record t := mk {
  Header_Accept : string;
  Param_query : string
}.
End Request.

Inductive Body :=
| problem_json (status : Z) (title : string) (detail : option string)
| data_body (data : bytes).

Module Response.
Record t := mk {
  status : Z;
  Content_Type : string;
  body : Body
}.
End Response.

(** The handler holds the distributor, of which it calls
    [GetEndorsements]. *)
Module Handler.
Record t := mk {
  EndorsementDistributor_GetEndorsements :
    string -> string -> string -> result bytes
}.
End Handler.

Module api.
Definition tenantID : string := "0".
Definition EdApiMediaType : string := "application/coserv+cbor".

Definition StatusOK : Z := 200.
Definition StatusBadRequest : Z := 400.
Definition StatusNotFound : Z := 404.
Definition StatusNotAcceptable : Z := 406.

(** [http.StatusText] on the codes the handler uses. *)
Definition http_StatusText (code : Z) : string :=
  if decide (code = 200%Z) then "OK"
  else if decide (code = 400%Z) then "Bad Request"
  else if decide (code = 404%Z) then "Not Found"
  else if decide (code = 406%Z) then "Not Acceptable"
  else "".

Fixpoint strings_Contains (s substr : string) : bool :=
  if String.prefix substr s then true
  else match s with
       | "" => false
       | String _ s' => strings_Contains s' substr
       end.

(** [strings.Split(s, sep)] for a separator of one byte. *)
Fixpoint strings_Split (s : string) (sep : ascii) : list string :=
  match s with
  | "" => [""]
  | String c s' =>
      let pieces := strings_Split s' sep in
      if Ascii.eqb c sep then "" :: pieces
      else match pieces with
           | piece :: pieces' => String c piece :: pieces'
           | [] => [String c ""]
           end
  end.

Definition strings_HasPrefix (s prefix : string) : bool := String.prefix prefix s.

(** The slice expression [s[n:]]. *)
Fixpoint slice_from (n : nat) (s : string) : string :=
  match n, s with
  | O, _ => s
  | S n', String _ s' => slice_from n' s'
  | S _, "" => ""
  end.

Fixpoint strings_TrimLeft (s : string) (cut : ascii) : string :=
  match s with
  | String c s' => if Ascii.eqb c cut then strings_TrimLeft s' cut else s
  | "" => ""
  end.

(** [strings.Trim(s, cutset)] for a cutset of one byte. *)
Definition strings_Trim (s : string) (cut : ascii) : string :=
  String.rev (strings_TrimLeft (String.rev (strings_TrimLeft s cut)) cut).

(** The double quote. *)
Definition dquote : ascii := "034"%char.

(** reportProblem reports an error using RFC7807 problem format. *)
Definition reportProblem (status : Z) (details : list string) : Response.t :=
  let detail :=
    if decide (0 < length details) then Some (String.concat ", " details)
    else None in
  Response.mk status "application/problem+json"
    (problem_json status (http_StatusText status) detail).

Section Handler.
Context {http : GoHTTP}.

(** [for _, part := range parts], with its [break].  The verb [%q] of the
    format is written as [%s] on the quoted profile. *)
Fixpoint parts_loop (parts : list string) (mediaType : string) : string :=
  match parts with
  | [] => mediaType
  | part :: rest =>
      let part := strings_TrimSpace part in
      if strings_HasPrefix part "profile=" then
        let profile := strings_Trim (slice_from 8 part) dquote in
        Sprintf "%s; profile=%s" [ArgS EdApiMediaType; ArgS (strconv_Quote profile)]
      else parts_loop rest mediaType
  end.

(** The media type computed from the Accept header. *)
Definition requested_mediaType (acceptHeader : string) : string :=
  let mediaType := EdApiMediaType in
  if strings_Contains acceptHeader "profile=" then
    parts_loop (strings_Split acceptHeader ";") mediaType
  else mediaType.

(** CoservRequest handles the main endorsement distribution endpoint.
    [next] is the next free address of the memory when the handler runs. *)
Definition CoservRequest (o : Handler.t) (next : nat) (c : Request.t)
  : Response.t :=
  let offered := NegotiateFormat (Request.Header_Accept c) [EdApiMediaType] in
  if decide (offered ≠ EdApiMediaType) then
    reportProblem StatusNotAcceptable
      [Sprintf "the only supported output format is %s" [ArgS EdApiMediaType]]
  else
  let coservQuery := Request.Param_query c in
  if decide (coservQuery = "") then
    reportProblem StatusBadRequest ["missing query parameter"]
  else
  let acceptHeader := Request.Header_Accept c in
  let mediaType := requested_mediaType acceptHeader in
  match Handler.EndorsementDistributor_GetEndorsements o
          tenantID coservQuery mediaType with
  | Err e =>
      let '(err, next) := on_heap next e in
      let status := StatusBadRequest in
      let '(target, _) := errors_New_at next "no artifacts found" in
      let status := if errors_Is err target then StatusNotFound else status in
      reportProblem status [Error e]
  | Ok res => Response.mk StatusOK EdApiMediaType (data_body res)
  end.
End Handler.
End api.

(** ** Reference implementations of the library functions

    Used by the examples only.  They follow encoding/base64 and
    encoding/json on documents of ASCII text: the offset reported by a
    base64 error, the replacement of invalid UTF-8, surrogate pairs in
    [\u] escapes and the rounding of number literals to binary floating
    point are not covered. *)
Module goref.

Definition byte_of_N (n : N) : Byte.byte :=
  match Byte.of_N (n mod 256) with
  | Some b => b
  | None => Byte.x00
  end.

(** *** encoding/base64, the standard alphabet with padding *)

Definition b64_value (c : ascii) : option N :=
  let n := N_of_ascii c in
  if (65 <=? n)%N && (n <=? 90)%N then Some (n - 65)%N
  else if (97 <=? n)%N && (n <=? 122)%N then Some (n - 71)%N
  else if (48 <=? n)%N && (n <=? 57)%N then Some (n + 4)%N
  else if (n =? 43)%N then Some 62%N
  else if (n =? 47)%N then Some 63%N
  else None.

Definition b64_char (n : N) : ascii :=
  if (n <? 26)%N then ascii_of_N (n + 65)
  else if (n <? 52)%N then ascii_of_N (n + 71)
  else if (n <? 62)%N then ascii_of_N (n - 4)
  else if (n =? 62)%N then "+"%char
  else "/"%char.

Definition pad_char : ascii := "="%char.

Fixpoint b64_quanta (s : list ascii) : option bytes :=
  match s with
  | [] => Some []
  | a :: b :: c :: d :: rest =>
      va ← b64_value a;
      vb ← b64_value b;
      let b1 := byte_of_N (va * 4 + vb / 16) in
      if Ascii.eqb c pad_char then
        if Ascii.eqb d pad_char && bool_decide (rest = []) then Some [b1] else None
      else
        vc ← b64_value c;
        let b2 := byte_of_N (vb * 16 + vc / 4) in
        if Ascii.eqb d pad_char then
          if bool_decide (rest = []) then Some [b1; b2] else None
        else
          vd ← b64_value d;
          let b3 := byte_of_N (vc * 64 + vd) in
          tail ← b64_quanta rest;
          Some (b1 :: b2 :: b3 :: tail)
  | _ => None
  end.

Definition is_newline (c : ascii) : bool :=
  Ascii.eqb c "010"%char || Ascii.eqb c "013"%char.

Definition DecodeString (s : string) : result bytes :=
  match b64_quanta (filter (fun c => is_newline c = false) (list_ascii_of_string s)) with
  | Some b => Ok b
  | None => Err (lib_error "encoding/base64" "illegal base64 data")
  end.

Fixpoint b64_encode (b : list N) : list ascii :=
  match b with
  | [] => []
  | [x] => [b64_char (x / 4); b64_char (x mod 4 * 16); pad_char; pad_char]
  | [x; y] =>
      [b64_char (x / 4); b64_char (x mod 4 * 16 + y / 16);
       b64_char (y mod 16 * 4); pad_char]
  | x :: y :: z :: rest =>
      b64_char (x / 4) :: b64_char (x mod 4 * 16 + y / 16)
        :: b64_char (y mod 16 * 4 + z / 64) :: b64_char (z mod 64)
        :: b64_encode rest
  end%N.

Definition EncodeToString (b : bytes) : string :=
  string_of_list_ascii (b64_encode (Byte.to_N <$> b)).

(** *** encoding/json *)

(** A number literal, [mantissa * 10 ^ exponent]. *)
Record number := mkNumber { mantissa : Z; exponent : Z }.

(** [int(f)]: truncation towards zero. *)
Definition int_of_number (f : number) : Z :=
  if (0 <=? exponent f)%Z then (mantissa f * 10 ^ exponent f)%Z
  else Z.quot (mantissa f) (10 ^ (- exponent f)).

Definition is_ws (c : ascii) : bool :=
  Ascii.eqb c " "%char || Ascii.eqb c "009"%char
  || Ascii.eqb c "010"%char || Ascii.eqb c "013"%char.

Fixpoint skip_ws (s : string) : string :=
  match s with
  | String c s' => if is_ws c then skip_ws s' else s
  | "" => ""
  end.

Definition digit_of (c : ascii) : option Z :=
  let n := N_of_ascii c in
  if (48 <=? n)%N && (n <=? 57)%N then Some (Z.of_N (n - 48)) else None.

Definition hexdigit_of (c : ascii) : option N :=
  let n := N_of_ascii c in
  if (48 <=? n)%N && (n <=? 57)%N then Some (n - 48)%N
  else if (97 <=? n)%N && (n <=? 102)%N then Some (n - 87)%N
  else if (65 <=? n)%N && (n <=? 70)%N then Some (n - 55)%N
  else None.

(** The longest run of digits at the head of [s]: its value after [acc],
    its length, and what follows. *)
Fixpoint digits (s : string) (acc : Z) (count : nat) : Z * nat * string :=
  match s with
  | String c s' =>
      match digit_of c with
      | Some d => digits s' (acc * 10 + d)%Z (S count)
      | None => (acc, count, s)
      end
  | "" => (acc, count, "")
  end.

Definition parse_exponent (s : string) : option (Z * string) :=
  match s with
  | String c s' =>
      if Ascii.eqb c "e"%char || Ascii.eqb c "E"%char then
        let '(negative, s') :=
          match s' with
          | String sign s'' =>
              if Ascii.eqb sign "-"%char then (true, s'')
              else if Ascii.eqb sign "+"%char then (false, s'')
              else (false, s')
          | "" => (false, s')
          end in
        let '(e, count, rest) := digits s' 0%Z 0 in
        if decide (count = 0) then None
        else Some (if negative then (- e)%Z else e, rest)
      else Some (0%Z, s)
  | "" => Some (0%Z, s)
  end.

Definition parse_fraction (int : Z) (s : string) : option (Z * Z * string) :=
  match s with
  | String c s' =>
      if Ascii.eqb c "."%char then
        let '(m, count, rest) := digits s' int 0 in
        if decide (count = 0) then None
        else Some (m, (- Z.of_nat count)%Z, rest)
      else Some (int, 0%Z, s)
  | "" => Some (int, 0%Z, s)
  end.

Definition parse_number (s : string) : option (number * string) :=
  let '(negative, s) :=
    match s with
    | String c s' => if Ascii.eqb c "-"%char then (true, s') else (false, s)
    | "" => (false, s)
    end in
  '(int, s) ←
    match s with
    | String c s' =>
        if Ascii.eqb c "0"%char then Some (0%Z, s')
        else let '(int, count, rest) := digits s 0%Z 0 in
             if decide (count = 0) then None else Some (int, rest)
    | "" => None
    end;
  '(m, e1, s) ← parse_fraction int s;
  '(e2, s) ← parse_exponent s;
  Some (mkNumber (if negative then (- m)%Z else m) (e1 + e2), s).

(** UTF-8 of a code point of the basic plane. *)
Definition utf8 (n : N) : string :=
  if (n <? 128)%N then String (ascii_of_N n) ""
  else if (n <? 2048)%N then
    String (ascii_of_N (192 + n / 64)) (String (ascii_of_N (128 + n mod 64)) "")
  else
    String (ascii_of_N (224 + n / 4096))
      (String (ascii_of_N (128 + n / 64 mod 64))
         (String (ascii_of_N (128 + n mod 64)) "")).

Definition simple_escape (c : ascii) : option ascii :=
  if Ascii.eqb c api.dquote then Some api.dquote
  else if Ascii.eqb c "\"%char then Some "\"%char
  else if Ascii.eqb c "/"%char then Some "/"%char
  else if Ascii.eqb c "b"%char then Some "008"%char
  else if Ascii.eqb c "f"%char then Some "012"%char
  else if Ascii.eqb c "n"%char then Some "010"%char
  else if Ascii.eqb c "r"%char then Some "013"%char
  else if Ascii.eqb c "t"%char then Some "009"%char
  else None.

(** A string literal after its opening quote: its value and what follows
    the closing quote. *)
Fixpoint parse_string (s : string) : option (string * string) :=
  match s with
  | "" => None
  | String c s' =>
      if Ascii.eqb c api.dquote then Some ("", s')
      else if Ascii.eqb c "\"%char then
        match s' with
        | String e s'' =>
            if Ascii.eqb e "u"%char then
              match s'' with
              | String h1 (String h2 (String h3 (String h4 rest))) =>
                  d1 ← hexdigit_of h1;
                  d2 ← hexdigit_of h2;
                  d3 ← hexdigit_of h3;
                  d4 ← hexdigit_of h4;
                  let n := (((d1 * 16 + d2) * 16 + d3) * 16 + d4)%N in
                  if (55296 <=? n)%N && (n <=? 57343)%N then None
                  else
                    '(str, rest') ← parse_string rest;
                    Some (utf8 n +:+ str, rest')
              | _ => None
              end
            else
              x ← simple_escape e;
              '(str, rest) ← parse_string s'';
              Some (String x str, rest)
        | "" => None
        end
      else if (N_of_ascii c <? 32)%N then None
      else
        '(str, rest) ← parse_string s';
        Some (String c str, rest)
  end.
(** A value, then what follows it.  Of a repeated object key the last
    occurrence stays. *)
Fixpoint parse_value (fuel : nat) (s : string) : option (any number * string) :=
  match fuel with
  | O => None
  | S fuel =>
      match skip_ws s with
      | "" => None
      | String c s' as s0 =>
          if Ascii.eqb c "{"%char then
            match skip_ws s' with
            | String c' s'' as s1 =>
                if Ascii.eqb c' "}"%char then Some (any_map ∅, s'')
                else parse_members fuel s1 ∅
            | "" => None
            end
          else if Ascii.eqb c "["%char then
            match skip_ws s' with
            | String c' s'' as s1 =>
                if Ascii.eqb c' "]"%char then Some (any_slice [], s'')
                else parse_elements fuel s1 []
            | "" => None
            end
          else if Ascii.eqb c api.dquote then
            '(str, rest) ← parse_string s';
            Some (any_string str, rest)
          else if String.prefix "true" s0 then
            Some (any_bool true, api.slice_from 4 s0)
          else if String.prefix "false" s0 then
            Some (any_bool false, api.slice_from 5 s0)
          else if String.prefix "null" s0 then
            Some (any_nil, api.slice_from 4 s0)
          else
            '(f, rest) ← parse_number s0;
            Some (any_float64 f, rest)
      end
  end
with parse_members (fuel : nat) (s : string) (m : gmap string (any number))
  : option (any number * string) :=
  match fuel with
  | O => None
  | S fuel =>
      match skip_ws s with
      | String c s1 =>
          if Ascii.eqb c api.dquote then
            '(k, s2) ← parse_string s1;
            match skip_ws s2 with
            | String colon s3 =>
                if Ascii.eqb colon ":"%char then
                  '(v, s4) ← parse_value fuel s3;
                  match skip_ws s4 with
                  | String sep s5 =>
                      if Ascii.eqb sep ","%char
                      then parse_members fuel s5 (<[k := v]> m)
                      else if Ascii.eqb sep "}"%char
                      then Some (any_map (<[k := v]> m), s5)
                      else None
                  | "" => None
                  end
                else None
            | "" => None
            end
          else None
      | "" => None
      end
  end
with parse_elements (fuel : nat) (s : string) (l : list (any number))
  : option (any number * string) :=
  match fuel with
  | O => None
  | S fuel =>
      '(v, s1) ← parse_value fuel s;
      match skip_ws s1 with
      | String sep s2 =>
          if Ascii.eqb sep ","%char then parse_elements fuel s2 (l ++ [v])
          else if Ascii.eqb sep "]"%char then Some (any_slice (l ++ [v]), s2)
          else None
      | "" => None
      end
  end.

(** A whole document. *)
Definition parse (data : bytes) : option (any number) :=
  let s := string_of_bytes data in
  '(v, rest) ← parse_value (2 * String.length s + 2) s;
  if decide (skip_ws rest = "") then Some v else None.

Definition Unmarshal_map (data : bytes) : result (gmap string (any number)) :=
  match parse data with
  | Some (any_map m) => Ok m
  | Some any_nil => Ok ∅
  | Some _ =>
      Err (lib_error "encoding/json"
             "json: cannot unmarshal into Go value of type map[string]interface {}")
  | None => Err (lib_error "encoding/json" "invalid JSON text")
  end.

Definition string_elements (l : list (any number)) : option (list string) :=
  mapM (fun v => match v with
                 | any_string s => Some s
                 | any_nil => Some ""
                 | _ => None
                 end) l.

Definition Unmarshal_strings (data : bytes) : result (list string) :=
  match parse data with
  | Some (any_slice l) =>
      match string_elements l with
      | Some strs => Ok strs
      | None =>
          Err (lib_error "encoding/json"
                 "json: cannot unmarshal into Go value of type string")
      end
  | Some any_nil => Ok []
  | Some _ =>
      Err (lib_error "encoding/json"
             "json: cannot unmarshal into Go value of type []string")
  | None => Err (lib_error "encoding/json" "invalid JSON text")
  end.

(** A string literal, escaped as [json.Marshal] escapes ASCII text. *)
Definition escape_char (c : ascii) : string :=
  let n := N_of_ascii c in
  if Ascii.eqb c api.dquote then String "\"%char (String api.dquote "")
  else if Ascii.eqb c "\"%char then "\\"
  else if Ascii.eqb c "010"%char then "\n"
  else if Ascii.eqb c "013"%char then "\r"
  else if Ascii.eqb c "009"%char then "\t"
  else if (n <? 32)%N || Ascii.eqb c "<"%char || Ascii.eqb c ">"%char
          || Ascii.eqb c "&"%char
  then "\u00" +:+ String (hexdigit (n / 16)) (String (hexdigit (n mod 16)) "")
  else String c "".

Fixpoint escape (s : string) : string :=
  match s with
  | "" => ""
  | String c s' => escape_char c +:+ escape s'
  end.

Definition literal (s : string) : string :=
  String api.dquote (escape s) +:+ String api.dquote "".

(** [json.Marshal] of a [[]string]; a nil slice gives [null]. *)
Definition Marshal_strings (l : list string) : result bytes :=
  match l with
  | [] => Ok (bytes_of_string "null")
  | _ => Ok (bytes_of_string ("[" +:+ String.concat "," (literal <$> l) +:+ "]"))
  end.

(** [json.Marshal] of a result: the fields are tagged 0 and 1, a byte
    slice is written in base64, and the slice of artifacts is never nil. *)
Definition Marshal_result (r : CoSERVResult.t) : result bytes :=
  let artifact a :=
    "{" +:+ literal "0" +:+ ":" +:+ literal (EncodeToString (Artifact.Data a)) +:+ "}" in
  let artifacts :=
    "[" +:+ String.concat ","
              (artifact <$> ResultObject.Artifacts (CoSERVResult.Result r)) +:+ "]" in
  Ok (bytes_of_string
        ("{" +:+ literal "0" +:+ ":" +:+ literal (CoSERVResult.Profile r) +:+ ","
         +:+ literal "1" +:+ ":{" +:+ literal "0" +:+ ":"
         +:+ pretty (ResultObject.ArtifactType (CoSERVResult.Result r)) +:+ ","
         +:+ literal "1" +:+ ":" +:+ artifacts +:+ "}}")).

Definition encoding : GoEncoding := {|
  float64 := number;
  int_of_float64 := int_of_number;
  base64_DecodeString := DecodeString;
  json_Unmarshal_map := Unmarshal_map;
  json_Unmarshal_strings := Unmarshal_strings;
  json_Marshal_strings := Marshal_strings;
  json_Marshal_result := Marshal_result
|}.
End goref.

(** *** gin, strings and strconv *)
Module httpref.

(** [parseAccept]: the media ranges of the header, parameters dropped. *)
Fixpoint before_semicolon (s : string) : string :=
  match s with
  | "" => ""
  | String c s' => if Ascii.eqb c ";"%char then "" else String c (before_semicolon s')
  end.

Definition is_space (c : ascii) : bool :=
  let n := N_of_ascii c in
  (n =? 32)%N || ((9 <=? n)%N && (n <=? 13)%N).

Fixpoint trim_left (s : string) : string :=
  match s with
  | String c s' => if is_space c then trim_left s' else s
  | "" => ""
  end.

Definition TrimSpace (s : string) : string :=
  String.rev (trim_left (String.rev (trim_left s))).

Definition parseAccept (acceptHeader : string) : list string :=
  filter (fun part => part ≠ "")
    ((fun part =>
        TrimSpace (match part with
                   | String c _ =>
                       if Ascii.eqb c ";"%char then part else before_semicolon part
                   | "" => part
                   end))
       <$> api.strings_Split acceptHeader ","%char).

(** Whether [accepted] selects [offer]: equal up to the first wildcard or
    to the end of [accepted]. *)
Fixpoint accepts (accepted offer : string) : bool :=
  match accepted, offer with
  | "", _ => true
  | String a accepted', String b offer' =>
      if Ascii.eqb a "*"%char || Ascii.eqb b "*"%char then true
      else if Ascii.eqb a b then accepts accepted' offer'
      else false
  | String _ _, "" => false
  end.

Definition NegotiateFormat (acceptHeader : string) (offered : list string) : string :=
  match parseAccept acceptHeader with
  | [] => hd "" offered
  | ranges =>
      match
        omap (fun accepted => head (filter (fun offer => accepts accepted offer = true) offered))
             ranges
      with
      | offer :: _ => offer
      | [] => ""
      end
  end.

(** [strconv.Quote] on printable ASCII text. *)
Fixpoint quote_body (s : string) : string :=
  match s with
  | "" => ""
  | String c s' =>
      (if Ascii.eqb c api.dquote || Ascii.eqb c "\"%char
       then String "\"%char (String c "") else String c "")
      +:+ quote_body s'
  end.

Definition Quote (s : string) : string :=
  String api.dquote (quote_body s) +:+ String api.dquote "".

Definition http : GoHTTP := Build_GoHTTP NegotiateFormat TrimSpace Quote.
End httpref.

(** *** The veraison modules

    Stand-ins for the examples: a class identifier is an implementation
    identifier or a UUID, an instance identifier is a UEID or a UUID, a
    query text is decoded by looking it up in a table, and the result is
    built and written as package internal/coserv does. *)
Module corimref.

Inductive class_id :=
| impl_id (b : bytes)
| class_uuid (b : bytes).

Inductive instance_id :=
| ueid (b : bytes)
| instance_uuid (b : bytes).

Definition types : CorimTypes := {|
  ClassID := class_id;
  ImplID := bytes;
  Instance := instance_id;
  CoservResult := CoSERVResult.t
|}.

Definition GetImplID (c : class_id) : result bytes :=
  match c with
  | impl_id b => Ok b
  | class_uuid _ => Err (lib_error "comid" "class-id type is: *comid.TaggedUUID")
  end.

Definition GetUEID (i : instance_id) : result bytes :=
  match i with
  | ueid b => Ok b
  | instance_uuid _ => Err (lib_error "comid" "instance-id type is: *comid.TaggedUUID")
  end.

Definition lookup_table (table : list (string * Coserv.t (types := types)))
    (query : string) : result (Coserv.t (types := types)) :=
  match list_find (fun entry => entry.1 = query) table with
  | Some (_, (_, q)) => Ok q
  | None => Err (lib_error "coserv" "decoding failed")
  end.

Definition LookupKey (schemeName tenantID id : string) : string :=
  Sprintf "%s://%s/%s" [ArgS schemeName; ArgS tenantID; ArgS id].

Definition code (t : ArtifactType) : Z :=
  match t with
  | ArtifactTypeEndorsedValues => 0
  | ArtifactTypeTrustAnchors => 1
  | ArtifactTypeReferenceValues => 2
  | ArtifactTypeOther n => n
  end.

Definition lib (table : list (string * Coserv.t (types := types)))
  : Corim (types := types) := {|
  Coserv_FromBase64Url := lookup_table table;
  ClassID_GetImplID := GetImplID;
  ImplID_String := goref.EncodeToString;
  Instance_GetUEID := GetUEID;
  base64_EncodeToString := goref.EncodeToString;
  arm_RefValLookupKey := LookupKey;
  arm_TaCoservLookupKey := LookupKey;
  SchemeName := "ARM_CCA";
  GetProfile := Ok "tag:arm.com,2023:cca_platform#1.0.0";
  Coserv_CreateResult := fun _ profile t artifacts =>
    coserv.CreateResult profile (code t) artifacts;
  CoservResult_ToCBOR := goref.Marshal_result
|}.
End corimref.

(** ** Sample data for the examples *)
Module examples.

(** The profile, the reference-value query and the Accept header of the
    test script of the repository: the query is the base64url text of the
    JSON document with the profile in field 0, artifact type 2 in field
    1/0 and one class selector in field 1/1/0. *)
Definition profile : string := "tag:arm.com,2023:cca_platform#1.0.0".

Definition rv_query : string :=
  "ewogICIwIjogInRhZzphcm0uY29tLDIwMjM6Y2NhX3BsYXRmb3JtIzEuMC4wIiwKICAiMSI6IHsKICAgICIwIjogMiwKICAgICIxIjogewogICAgICAiMCI6IFsKICAgICAgICB7CiAgICAgICAgICAiMCI6ICI3ZjQ1NGM0NjAyMDEwMTAwMDAwMDAwMDAwMDAwMDAwMDAzMDAzZTAwMDEwMDAwMDA1MDU4MDAwMDAwMDAwMDAwIgogICAgICAgIH0KICAgICAgXQogICAgfQogIH0KfQo".

Definition accept : string :=
  "application/coserv+cbor; profile=" +:+ httpref.Quote profile.

Definition request : Request.t := Request.mk accept rv_query.

(** The base64url text of the JSON document that is the empty object. *)
Definition empty_object_query : string := "e30".

(** A table without rows on a database that answers every call. *)
Definition no_rows {K : Type} : PostgresStore.t K :=
  PostgresStore.mk [] (fun _ => None).

(** The key that package internal/coserv generates for [rv_query]. *)
Definition rv_key : string :=
  "coserv://0/tag:arm.com,2023:cca_platform#1.0.0/2/64656661756c74".

(** The table after [Set] of one artifact under [rv_key]. *)
Definition one_row : PostgresStore.t string :=
  (store.Set_ (enc := goref.encoding) no_rows rv_key
     [bytes_of_string "sample_endorsement_data_1"]).2.

(** The PostgresStore over the reference encoding. *)
Definition postgres {K : Type} `{GoKey K} : Store.t K (PostgresStore.t K) :=
  store.PostgresStore_Store (enc := goref.encoding).

(** The handler over a distributor on the store [s]. *)
Definition handler (s : PostgresStore.t string) : Handler.t :=
  Handler.mk (store.GetEndorsements (enc := goref.encoding) (st := postgres) s).

(** Queries of package internal/coserv that agree on the profile, the
    artifact type and the first class selector, and one without
    selector. *)
Definition class_a : ClassSelector.t := ClassSelector.mk [Byte.x7f; Byte.x45].
Definition class_b : ClassSelector.t := ClassSelector.mk [Byte.x4c; Byte.x46].
Definition instance_c : InstanceSelector.t := InstanceSelector.mk [Byte.x01; Byte.x07].

Definition classes_a_b : CoSERV.t :=
  CoSERV.mk "P" (QueryObject.mk 2 (EnvironmentSelector.mk [class_a; class_b] [])).
Definition class_a_instance_c : CoSERV.t :=
  CoSERV.mk "P" (QueryObject.mk 2 (EnvironmentSelector.mk [class_a] [instance_c])).

(** Queries of the veraison revision, by name. *)
Definition class_of (id : corimref.class_id)
  : comid.Class (types := corimref.types) :=
  comid.mkClass (types := corimref.types) (Some id).

Definition query_of (t : ArtifactType)
    (classes : option (list (comid.Class (types := corimref.types))))
    (instances : option (list corimref.instance_id))
  : Coserv.t (types := corimref.types) :=
  Coserv.mk (Coserv.mkQuery t (Coserv.mkEnvironmentSelector classes instances)).

Definition impl_1 : bytes := bytes_of_string "implementation-one".
Definition impl_2 : bytes := bytes_of_string "implementation-two".

Definition two_classes : list (comid.Class (types := corimref.types)) :=
  [class_of (corimref.impl_id impl_1); class_of (corimref.impl_id impl_2)].

Definition second_class_without_id : list (comid.Class (types := corimref.types)) :=
  [class_of (corimref.impl_id impl_1);
   comid.mkClass (types := corimref.types) None;
   class_of (corimref.class_uuid impl_2)].

Definition table : list (string * Coserv.t (types := corimref.types)) :=
  [("rv-two-classes", query_of ArtifactTypeReferenceValues (Some two_classes) None);
   ("rv-second-class-without-id",
    query_of ArtifactTypeReferenceValues (Some second_class_without_id) None);
   ("rv-instances-only",
    query_of ArtifactTypeReferenceValues None (Some [corimref.ueid impl_1]));
   ("ev-two-classes", query_of ArtifactTypeEndorsedValues (Some two_classes) None)].

Definition corim : Corim (types := corimref.types) := corimref.lib table.
End examples.

(** ** Package store: opening the store *)

(** Modelled from the spec: [config.DatabaseConfig], declared in package
    internal/config, which is not among the sources; the fields are those
    that [NewPostgresStore] reads, with the types its format verbs ask
    for. *)
Module config.
Record DatabaseConfig := mkDatabaseConfig {
  User : string;
  Password : string;
  Host : string;
  Port : Z;
  Name : string;
  SSLMode : string
}.
End config.

(** What [NewPostgresStore] does with the connection pool, in order. *)
Inductive poolEvent :=
| pgxpool_New (dsn : string)
| pool_Ping
| pool_Exec_setupTable
| pool_Close.

(** The database server: the error, if any, with which it answers the
    creation of a pool for a connection string, the ping and the creation
    of the table, and the store that a pool on it gives. *)
Module Server.
Record t := mk {
  New_error : string -> option error;
  Ping_error : option error;
  Exec_error : option error;
  database : PostgresStore.t string
}.
End Server.

Module postgres.

(** setupTable creates the endorsements table if it doesn't exist. *)
Definition setupTable (server : Server.t) : option error * list poolEvent :=
  (Server.Exec_error server, [pool_Exec_setupTable]).

(** NewPostgresStore creates a new PostgreSQL store.  The second component
    lists what was done with the pool. *)
Definition NewPostgresStore (server : Server.t) (cfg : config.DatabaseConfig)
  : result (PostgresStore.t string) * list poolEvent :=
  let dsn :=
    Sprintf "postgresql://%s:%s@%s:%d/%s?sslmode=%s"
      [ArgS (config.User cfg); ArgS (config.Password cfg);
       ArgS (config.Host cfg); ArgD (config.Port cfg);
       ArgS (config.Name cfg); ArgS (config.SSLMode cfg)] in
  match Server.New_error server dsn with
  | Some err =>
      (Err (fmt_Errorf_w "failed to create connection pool: %w" [] err),
       [pgxpool_New dsn])
  | None =>
  match Server.Ping_error server with
  | Some err =>
      (Err (fmt_Errorf_w "failed to ping database: %w" [] err),
       [pgxpool_New dsn; pool_Ping; pool_Close])
  | None =>
  let '(err, events) := setupTable server in
  match err with
  | Some err =>
      (Err (fmt_Errorf_w "failed to setup table: %w" [] err),
       [pgxpool_New dsn; pool_Ping] ++ events ++ [pool_Close])
  | None =>
      (Ok (Server.database server), [pgxpool_New dsn; pool_Ping] ++ events)
  end end end.
End postgres.

(** ** Hexadecimal text read back

    The sources write hexadecimal and never read it; the reading is used
    to state that the writing loses nothing. *)
Module hexread.

Fixpoint unhex (s : string) : option bytes :=
  match s with
  | "" => Some []
  | String a (String b rest) =>
      hi ← goref.hexdigit_of a;
      lo ← goref.hexdigit_of b;
      x ← Byte.of_N (hi * 16 + lo);
      tail ← unhex rest;
      Some (x :: tail)
  | String _ "" => None
  end.
End hexread.

(** [k] padding characters of base64. *)
Fixpoint padding (k : nat) : string :=
  match k with
  | O => ""
  | S k' => String goref.pad_char (padding k')
  end.

(** ** Further sample data *)
Module samples.

Definition two_instances : list corimref.instance_id :=
  [corimref.ueid examples.impl_1; corimref.ueid examples.impl_2].

Definition second_instance_without_ueid : list corimref.instance_id :=
  [corimref.ueid examples.impl_1; corimref.instance_uuid examples.impl_2;
   corimref.ueid examples.impl_2].

Definition table : list (string * Coserv.t (types := corimref.types)) :=
  examples.table
  ++ [("ta-two-instances",
       examples.query_of ArtifactTypeTrustAnchors None (Some two_instances));
      ("ta-second-instance-without-ueid",
       examples.query_of ArtifactTypeTrustAnchors None
         (Some second_instance_without_ueid));
      ("rv-two-classes-and-instances",
       examples.query_of ArtifactTypeReferenceValues (Some examples.two_classes)
         (Some two_instances))].

Definition corim : Corim (types := corimref.types) := corimref.lib table.

(** The JSON text of an array of strings. *)
Definition array_text (l : list string) : string :=
  "[" +:+ String.concat "," (goref.literal <$> l) +:+ "]".

(** A table with two rows under one key and one row under another, on a
    database that answers every call. *)
Definition three_rows : PostgresStore.t string :=
  PostgresStore.mk
    [("k", array_text ["a"; "b"]);
     ("other", array_text ["x"]);
     ("k", array_text ["c"])]
    (fun _ => None).

(** A table whose second row under the key is not JSON. *)
Definition malformed_row : PostgresStore.t string :=
  PostgresStore.mk
    [("k", array_text ["a"]); ("k", "not json"); ("k", array_text ["c"])]
    (fun _ => None).

(** A database on which transactions cannot begin. *)
Definition no_transactions : PostgresStore.t string :=
  PostgresStore.mk
    [("k", array_text ["a"])]
    (fun call => match call with
                 | pool_Begin => Some (lib_error "pgx" "connection refused")
                 | _ => None
                 end).

Definition cfg : config.DatabaseConfig :=
  config.mkDatabaseConfig "postgres" "password" "localhost" 5432
    "endorsements" "disable".

(** The base64url text of the JSON document with the profile of the test
    script in field 0, artifact type 2 in field 1/0 and no field 1/1. *)
Definition rv_query_without_selector : string :=
  "eyIwIjoidGFnOmFybS5jb20sMjAyMzpjY2FfcGxhdGZvcm0jMS4wLjAiLCIxIjp7IjAiOjJ9fQ".

(** A server that answers every call. *)
Definition server : Server.t :=
  Server.mk (fun _ => None) None None examples.no_rows.
End samples.

(** * Properties *)

(** ** Strings *)

Lemma append_cons (c : ascii) (s1 s2 : string) :
  String c s1 +:+ s2 = String c (s1 +:+ s2).
Proof. reflexivity. Qed.

Lemma append_assoc (s1 s2 s3 : string) : (s1 +:+ s2) +:+ s3 = s1 +:+ (s2 +:+ s3).
Proof.
  induction s1 as [|c s1 IH]; [reflexivity|].
  rewrite !append_cons. by f_equal.
Qed.

Lemma append_nil_r (s : string) : s +:+ "" = s.
Proof.
  induction s as [|c s IH]; [reflexivity|].
  rewrite append_cons. by f_equal.
Qed.

Lemma length_append (s1 s2 : string) :
  String.length (s1 +:+ s2) = String.length s1 + String.length s2.
Proof.
  induction s1 as [|c s1 IH]; [reflexivity|].
  rewrite append_cons. simpl. by f_equal.
Qed.

(** ** The result envelope *)

(** The loop of [CreateResult] from index [k] on, once the entries below
    [k] are written. *)
Lemma CreateResult_fill (artifacts : list bytes) (written : list Artifact.t) :
  foldl (fun acc ia => <[ia.1 := Artifact.mk ia.2]> acc)
        (written ++ replicate (length artifacts) Artifact.zero)
        (imap (fun i a => (length written + i, a)) artifacts)
  = written ++ (Artifact.mk <$> artifacts).
Proof.
  revert written.
  induction artifacts as [|a artifacts IH]; intros written; simpl.
  - reflexivity.
  - rewrite Nat.add_0_r.
    rewrite (insert_app_r_alt written _ (length written)) by lia.
    rewrite Nat.sub_diag. simpl.
    rewrite (cons_middle _ written (replicate _ _)).
    rewrite (cons_middle _ written (list_fmap _ _ _ _)).
    rewrite !app_assoc.
    change (list_fmap bytes Artifact.t Artifact.mk artifacts)
      with (Artifact.mk <$> artifacts).
    rewrite <- (IH (written ++ [Artifact.mk a])).
    f_equal. apply imap_ext. intros i x _. simpl.
    rewrite length_app. simpl. f_equal. lia.
Qed.

Lemma CreateResult_Artifacts (profile : string) (artifactType : Z)
    (artifacts : list bytes) :
  ResultObject.Artifacts
    (CoSERVResult.Result (coserv.CreateResult profile artifactType artifacts))
  = Artifact.mk <$> artifacts.
Proof.
  unfold coserv.CreateResult. simpl.
  exact (CreateResult_fill artifacts []).
Qed.

(** C8.  For every profile, artifact type and list of artifacts,
    [CreateResult] returns a result (it has no failing path and every index
    it writes is within the slice it made) whose field 0 is the profile and
    whose field 1 holds the artifact type and a sequence of artifacts of the
    same length and order as the input, the i-th being the object whose
    field 0 is the i-th byte string. *)
Theorem C8_CreateResult_envelope (profile : string) (artifactType : Z)
    (artifacts : list bytes) :
  let r := coserv.CreateResult profile artifactType artifacts in
  CoSERVResult.Profile r = profile
  /\ ResultObject.ArtifactType (CoSERVResult.Result r) = artifactType
  /\ length (ResultObject.Artifacts (CoSERVResult.Result r)) = length artifacts
  /\ (forall i : nat,
        ResultObject.Artifacts (CoSERVResult.Result r) !! i
        = Artifact.mk <$> (artifacts !! i))
  /\ Artifact.Data <$> ResultObject.Artifacts (CoSERVResult.Result r) = artifacts
  /\ (forall i a, imap pair artifacts !! i = Some a ->
        a.1 < length (replicate (length artifacts) Artifact.zero)).
Proof.
  intros r. subst r. rewrite CreateResult_Artifacts.
  repeat split.
  - by rewrite length_fmap.
  - intros i. by rewrite list_lookup_fmap.
  - rewrite <- list_fmap_compose. simpl. apply list_fmap_id.
  - intros i [j a]. rewrite list_lookup_imap, length_replicate.
    intros Hi. apply fmap_Some in Hi as (x & Hx & Heq).
    inversion Heq; subst. simpl. by apply lookup_lt_Some in Hx.
Qed.

(** ** The key generator of package internal/coserv *)


(** The key of a query whose profile is not empty. *)
Lemma GenerateKey_Ok (c : CoSERV.t) (tenantID : string) :
  CoSERV.Profile c <> "" ->
  coserv.GenerateKey c tenantID
  = Ok ("coserv://" +:+ tenantID +:+ "/" +:+ CoSERV.Profile c +:+ "/"
        +:+ pretty (QueryObject.ArtifactType (CoSERV.Query c)) +:+ "/"
        +:+ hex (coserv.hash (QueryObject.EnvironmentSelector (CoSERV.Query c)))).
Proof.
  intros Hp. unfold coserv.GenerateKey, coserv.GetProfile.
  destruct (decide (CoSERV.Profile c = "")) as [Heq|_]; [contradiction|].
  f_equal. unfold Sprintf.
  rewrite <- (append_nil_r (hex _)). reflexivity.
Qed.



(** ** Decoding (package internal/coserv) *)

Section DecodeProperties.
Context {enc : GoEncoding}.

(** The padding loop has ended after three rounds: the length is then a
    multiple of four, so more rounds change nothing. *)
Lemma pad_loop_exit (encoded : string) :
  (String.length (coserv.pad_loop 3 encoded) mod 4 = 0)%nat.
Proof.
  assert (Hstep : forall s n, String.length s mod 4 = n ->
                    String.length (s +:+ "=") mod 4 = (n + 1) mod 4).
  { intros s n <-. rewrite length_append. simpl String.length.
    rewrite Nat.Div0.add_mod_idemp_l. reflexivity. }
  pose proof (Nat.mod_upper_bound (String.length encoded) 4 ltac:(lia)) as Hlt.
  cbn [coserv.pad_loop].
  destruct (decide (String.length encoded mod 4 ≠ 0)) as [H0|H0];
    [|exact (dec_stable H0)].
  pose proof (Hstep encoded _ eq_refl) as H1.
  destruct (decide (String.length (encoded +:+ "=") mod 4 ≠ 0)) as [H1'|H1'];
    [|exact (dec_stable H1')].
  pose proof (Hstep (encoded +:+ "=") _ H1) as H2.
  destruct (decide (String.length ((encoded +:+ "=") +:+ "=") mod 4 ≠ 0))
    as [H2'|H2']; [|exact (dec_stable H2')].
  pose proof (Hstep ((encoded +:+ "=") +:+ "=") _ H2) as H3.
  rewrite H3. rewrite H2 in H2'. rewrite H1 in H1'.
  destruct (String.length encoded mod 4) as [|[|[|[|n]]]];
    simpl in *; try lia; try congruence; try reflexivity.
Qed.

Lemma pad_loop_more (fuel : nat) (encoded : string) :
  coserv.pad_loop (3 + fuel) encoded = coserv.pad_loop 3 encoded.
Proof.
  assert (Hstop : forall n s, (String.length s mod 4 = 0)%nat ->
                    coserv.pad_loop n s = s).
  { intros [|n] s Hs; cbn [coserv.pad_loop]; [reflexivity|].
    destruct (decide (String.length s mod 4 ≠ 0)); [contradiction | reflexivity]. }
  pose proof (pad_loop_exit encoded) as Hexit. revert Hexit.
  cbn [coserv.pad_loop Nat.add].
  repeat (destruct (decide _); [|reflexivity]).
  intros Hexit. by apply Hstop.
Qed.

(** What [FromCBOR] reads of a document: the profile when field 0 is a
    string, the artifact type when field 1 is an object whose field 0 is a
    number; every other part of the receiver, the environment selector
    among them, is left as it was. *)
Lemma FromCBOR_Ok (c : CoSERV.t) (data : bytes)
    (temp : gmap string (any float64)) :
  json_Unmarshal_map data = Ok temp ->
  let out := coserv.FromCBOR c data in
  out.1 = None
  /\ CoSERV.Profile out.2
     = match temp !! "0" with
       | Some (any_string profile) => profile
       | _ => CoSERV.Profile c
       end
  /\ QueryObject.ArtifactType (CoSERV.Query out.2)
     = match temp !! "1" with
       | Some (any_map queryData) =>
           match queryData !! "0" with
           | Some (any_float64 artifactType) => int_of_float64 artifactType
           | _ => QueryObject.ArtifactType (CoSERV.Query c)
           end
       | _ => QueryObject.ArtifactType (CoSERV.Query c)
       end
  /\ QueryObject.EnvironmentSelector (CoSERV.Query out.2)
     = QueryObject.EnvironmentSelector (CoSERV.Query c).
Proof.
  intros Htemp. unfold coserv.FromCBOR. rewrite Htemp. simpl.
  split; [reflexivity|].
  destruct (temp !! "0") as [[]|]; destruct (temp !! "1") as [[| | | | |queryData]|];
    simpl; try (repeat split; reflexivity);
    destruct (queryData !! "0") as [[]|]; repeat split; reflexivity.
Qed.

Lemma FromCBOR_Err (c : CoSERV.t) (data : bytes) (e : error) :
  json_Unmarshal_map data = Err e ->
  coserv.FromCBOR c data = (Some (fmt_Errorf "failed to parse CoSERV data" []), c).
Proof. intros He. unfold coserv.FromCBOR. by rewrite He. Qed.

(** The environment selector of the receiver is the same before and after
    decoding, whatever the input. *)
Lemma FromBase64Url_EnvironmentSelector (c : CoSERV.t) (encoded : string) :
  QueryObject.EnvironmentSelector (CoSERV.Query (coserv.FromBase64Url c encoded).2)
  = QueryObject.EnvironmentSelector (CoSERV.Query c).
Proof.
  unfold coserv.FromBase64Url.
  destruct (base64_DecodeString _) as [data|e]; [|reflexivity].
  destruct (json_Unmarshal_map data) as [temp|e] eqn:Htemp.
  - by destruct (FromCBOR_Ok c data temp Htemp) as (_ & _ & _ & ->).
  - by rewrite (FromCBOR_Err c data e Htemp).
Qed.

(** C5, as the code has it.  The text handed to the base64 decoder is the
    input with [-] and [_] replaced and padded to a multiple of four.
    Decoding fails with the base64 error exactly when that decoder fails,
    and with the parse error exactly when it succeeds and the bytes do not
    unmarshal into a map; in every other case it succeeds, and a document
    without a string in field 0 leaves the profile as it was.  An empty
    profile is rejected by [GetProfile], and so by [GenerateKey], not by
    decoding. *)
Theorem C5_decode_failures (c : CoSERV.t) (encoded : string) :
  let normalized :=
    coserv.pad_loop 3
      (coserv.strings_ReplaceAll (coserv.strings_ReplaceAll encoded "-" "+")
         "_" "/") in
  let out := coserv.FromBase64Url c encoded in
  (String.length normalized mod 4 = 0)%nat
  /\ (forall e,
        out = (Some (fmt_Errorf_w "failed to decode base64: %w" [] e), c)
        <-> base64_DecodeString normalized = Err e)
  /\ (out = (Some (fmt_Errorf "failed to parse CoSERV data" []), c)
      <-> exists data, base64_DecodeString normalized = Ok data
                       /\ is_Ok (json_Unmarshal_map data) = false)
  /\ (out.1 = None
      <-> exists data temp, base64_DecodeString normalized = Ok data
                            /\ json_Unmarshal_map data = Ok temp)
  /\ (forall data temp,
        base64_DecodeString normalized = Ok data ->
        json_Unmarshal_map data = Ok temp ->
        (forall profile, temp !! "0" <> Some (any_string profile)) ->
        out.1 = None /\ CoSERV.Profile out.2 = CoSERV.Profile c)
  /\ (forall c' tenantID,
        (coserv.GetProfile c'
         = Err (fmt_Errorf "profile not found in CoSERV query" [])
         <-> CoSERV.Profile c' = "")
        /\ (CoSERV.Profile c' = "" ->
            coserv.GenerateKey c' tenantID
            = Err (fmt_Errorf "profile not found in CoSERV query" []))).
Proof.
  intros normalized out. subst out. unfold coserv.FromBase64Url.
  fold normalized. split; [apply pad_loop_exit|].
  destruct (base64_DecodeString normalized) as [data|e0] eqn:Hb64.
  - destruct (json_Unmarshal_map data) as [temp|e1] eqn:Htemp.
    + destruct (FromCBOR_Ok c data temp Htemp) as (Herr & Hprofile & _).
      destruct (coserv.FromCBOR c data) as [err c'] eqn:Hout. simpl in *. subst err.
      split; [intros e; split; discriminate|].
      split.
      { split; [discriminate|]. intros (data' & [= <-] & Hfalse).
        rewrite Htemp in Hfalse. discriminate. }
      split; [split; [eauto | reflexivity]|].
      split.
      { intros data' temp' [= <-] Htemp' Hno. rewrite Htemp in Htemp'.
        injection Htemp' as <-. split; [reflexivity|].
        rewrite Hprofile. destruct (temp !! "0") as [[]|]; try reflexivity.
        by destruct (Hno s). }
      intros c'' tenantID. unfold coserv.GenerateKey, coserv.GetProfile.
      destruct (decide (CoSERV.Profile c'' = "")); split; try split;
        congruence.
    + rewrite (FromCBOR_Err c data e1 Htemp). simpl.
      split; [intros e; split; discriminate|].
      split; [split; [intros _; exists data; by rewrite Htemp | reflexivity]|].
      split.
      { split; [discriminate|]. intros (data' & temp & [= <-] & Htemp').
        rewrite Htemp in Htemp'. discriminate. }
      split; [intros data' temp [= <-] Htemp'; rewrite Htemp in Htemp'; discriminate|].
      intros c'' tenantID. unfold coserv.GenerateKey, coserv.GetProfile.
      destruct (decide (CoSERV.Profile c'' = "")); split; try split;
        congruence.
  - simpl.
    split; [intros e; split; [intros [= ->] | intros [= ->]]; reflexivity|].
    split; [split; [discriminate | intros (? & ? & _); discriminate]|].
    split; [split; [discriminate | intros (? & ? & ? & _); discriminate]|].
    split; [discriminate|].
    intros c'' tenantID. unfold coserv.GenerateKey, coserv.GetProfile.
    destruct (decide (CoSERV.Profile c'' = "")); split; try split;
      congruence.
Qed.
End DecodeProperties.

(** C4.  Decoding reads the profile and the artifact type of the document
    and nothing of its field 1/1: the environment selector of the receiver
    is what it was before, for every input.  On the reference-value query
    of the test script the decoded query has profile and artifact type 2
    but no class selector, although field 1/1/0 of the document holds
    one. *)
Theorem C4_environment_selector_not_decoded :
  (forall (enc : GoEncoding) (c : CoSERV.t) (encoded : string),
      QueryObject.EnvironmentSelector
        (CoSERV.Query (coserv.FromBase64Url c encoded).2)
      = QueryObject.EnvironmentSelector (CoSERV.Query c))
  /\ coserv.FromBase64Url (enc := goref.encoding) CoSERV.zero examples.rv_query
     = (None,
        CoSERV.mk examples.profile
          (QueryObject.mk 2 (EnvironmentSelector.mk [] [])))
  /\ exists data temp query selector classes,
       goref.DecodeString (coserv.pad_loop 3 examples.rv_query) = Ok data
       /\ goref.Unmarshal_map data = Ok temp
       /\ temp !! "1" = Some (any_map query)
       /\ query !! "1" = Some (any_map selector)
       /\ selector !! "0" = Some (any_slice classes)
       /\ length classes = 1.
Proof.
  split; [intros enc c encoded; apply FromBase64Url_EnvironmentSelector|].
  split; [vm_compute; reflexivity|].
  do 5 eexists.
  repeat (split; [vm_compute; reflexivity|]).
  vm_compute. reflexivity.
Qed.

(** C5 as the design document has it does not hold on the base64url text
    of the empty JSON object: the document has no profile, and decoding
    succeeds, leaving the profile empty. *)
Lemma C5_missing_profile_counterexample :
  coserv.FromBase64Url (enc := goref.encoding) CoSERV.zero examples.empty_object_query
  = (None, CoSERV.zero)
  /\ CoSERV.Profile
       (coserv.FromBase64Url (enc := goref.encoding) CoSERV.zero
          examples.empty_object_query).2 = "".
Proof. split; vm_compute; reflexivity. Qed.

(** ** Key synthesis (the revision on github.com/veraison/corim) *)

Section SynthProperties.
Context {types : CorimTypes} {corim : Corim}.

Lemma classes_loop_Ok (tenantID : string) (classes : list comid.Class)
    (implIDs : list string) (i : nat) (keys : list string) :
  Forall2 (fun c implID => synth.extractImplID c = Ok implID) classes implIDs ->
  synth.classes_loop tenantID i classes keys
  = Ok (keys ++ (arm_RefValLookupKey SchemeName tenantID <$> implIDs)).
Proof.
  intros Hall. revert i keys.
  induction Hall as [|c implID classes implIDs Hc _ IH]; intros i keys; simpl.
  - by rewrite app_nil_r.
  - rewrite Hc, IH. by rewrite <- app_assoc.
Qed.

Lemma classes_loop_Err (tenantID : string) (before after : list comid.Class)
    (c : comid.Class) (e : error) (i : nat) (keys : list string) :
  Forall (fun c' => is_Ok (synth.extractImplID c') = true) before ->
  synth.extractImplID c = Err e ->
  synth.classes_loop tenantID i (before ++ c :: after) keys
  = Err (fmt_Errorf_w "creating lookup key for class[%d]: %w"
           [ArgD (Z.of_nat (i + length before))] e).
Proof.
  intros Hbefore Hc. revert i keys.
  induction Hbefore as [|c' before Hc' _ IH]; intros i keys; simpl.
  - rewrite Hc. by rewrite Nat.add_0_r.
  - destruct (synth.extractImplID c') as [implID|]; [|discriminate].
    rewrite IH. do 4 f_equal. lia.
Qed.

Lemma classes_loop_is_Ok (tenantID : string) (classes : list comid.Class)
    (i : nat) (keys : list string) :
  is_Ok (synth.classes_loop tenantID i classes keys)
  = forallb (fun c => is_Ok (synth.extractImplID c)) classes.
Proof.
  revert i keys. induction classes as [|c classes IH]; intros i keys; simpl.
  - reflexivity.
  - destruct (synth.extractImplID c); simpl; [apply IH | reflexivity].
Qed.

(** The implementation identifiers of a list of class selectors all of
    which have one. *)
Lemma extractImplID_all (classes : list comid.Class) :
  (forall c, c ∈ classes -> is_Ok (synth.extractImplID c) = true) ->
  exists implIDs,
    Forall2 (fun c implID => synth.extractImplID c = Ok implID) classes implIDs.
Proof.
  induction classes as [|c classes IH]; intros Hall.
  - exists []. constructor.
  - destruct IH as [implIDs Hrest].
    { intros c' Hc'. apply Hall. by right. }
    pose proof (Hall c ltac:(by left)) as Hc.
    destruct (synth.extractImplID c) as [implID|] eqn:Heq; [|discriminate].
    exists (implID :: implIDs). by constructor.
Qed.

(** [GenerateKey] on a query for reference values. *)
Lemma GenerateKey_reference_values (tenantID query : string) (q : Coserv.t) :
  Coserv_FromBase64Url query = Ok q ->
  Coserv.Query_ArtifactType (Coserv.Coserv_Query q) = ArtifactTypeReferenceValues ->
  synth.GenerateKey tenantID query
  = synth.classes_loop tenantID 0
      (default [] (Coserv.Classes
                     (Coserv.Query_EnvironmentSelector (Coserv.Coserv_Query q))))
      [].
Proof.
  intros Hq Ht. unfold synth.GenerateKey. rewrite Hq, Ht.
  by destruct (Coserv.Classes _).
Qed.

(** A class selector has an implementation identifier exactly when it has
    a class identifier of which [GetImplID] succeeds. *)
Lemma extractImplID_is_Ok (c : comid.Class) :
  is_Ok (synth.extractImplID c) = true
  <-> exists classID,
        comid.Class_ClassID c = Some classID
        /\ is_Ok (ClassID_GetImplID classID) = true.
Proof.
  unfold synth.extractImplID.
  destruct (comid.Class_ClassID c) as [classID|]; simpl.
  - destruct (ClassID_GetImplID classID) as [implID|e] eqn:Hid; simpl.
    + split; [|reflexivity]. intros _. exists classID. by rewrite Hid.
    + split; [discriminate|]. intros (classID' & [= <-] & Hok).
      by rewrite Hid in Hok.
  - split; [discriminate|]. intros (classID & ? & _). discriminate.
Qed.

(** The identifier that [extractImplID] returns is the text of the
    implementation identifier of the class identifier. *)
Lemma extractImplID_Ok (c : comid.Class) (text : string) :
  synth.extractImplID c = Ok text ->
  exists classID implID,
    comid.Class_ClassID c = Some classID
    /\ ClassID_GetImplID classID = Ok implID
    /\ text = ImplID_String implID.
Proof.
  unfold synth.extractImplID.
  destruct (comid.Class_ClassID c) as [classID|]; [|discriminate]. simpl.
  destruct (ClassID_GetImplID classID) as [implID|e] eqn:Hid; [|discriminate].
  simpl. intros [= <-]. by exists classID, implID.
Qed.

(** The errors of [extractImplID]. *)
Lemma extractImplID_missing (c : comid.Class) :
  comid.Class_ClassID c = None ->
  synth.extractImplID c = Err (errors_New "missing class-id").
Proof. unfold synth.extractImplID. by intros ->. Qed.

Lemma extractImplID_Err (c : comid.Class) (classID : ClassID) (e : error) :
  comid.Class_ClassID c = Some classID ->
  ClassID_GetImplID classID = Err e ->
  synth.extractImplID c
  = Err (fmt_Errorf_w "could not extract implementation-id from class-id: %w"
           [] e).
Proof. unfold synth.extractImplID. by intros -> ->. Qed.

(** The loop over the class selectors stops at the first selector whose
    extraction fails, with the error for its index. *)
Lemma classes_loop_first_Err (tenantID : string) (classes : list comid.Class)
    (i : nat) (c : comid.Class) (e : error) :
  classes !! i = Some c ->
  (forall j c', j < i -> classes !! j = Some c' ->
     exists classID,
       comid.Class_ClassID c' = Some classID
       /\ is_Ok (ClassID_GetImplID classID) = true) ->
  synth.extractImplID c = Err e ->
  synth.classes_loop tenantID 0 classes []
  = Err (fmt_Errorf_w "creating lookup key for class[%d]: %w"
           [ArgD (Z.of_nat i)] e).
Proof.
  intros Hi Hbefore Hc.
  rewrite <- (take_drop_middle _ _ _ Hi).
  rewrite classes_loop_Err with (e := e); [| |exact Hc].
  - rewrite length_take, Nat.min_l; [reflexivity|].
    apply lookup_lt_Some in Hi. lia.
  - apply Forall_forall. intros c' Hc'.
    apply list_elem_of_lookup in Hc' as [j Hj].
    pose proof (lookup_lt_Some _ _ _ Hj) as Hlt.
    rewrite length_take in Hlt.
    rewrite lookup_take_lt in Hj by lia.
    apply extractImplID_is_Ok. apply (Hbefore j c'); [lia | exact Hj].
Qed.

(** C1, for the key generator of the store package.  For every tenant and
    every query for reference values whose list of class selectors is
    [classes]: if every selector has a class identifier of which
    [GetImplID] succeeds, key synthesis returns as many keys as there are
    selectors, the i-th key being the reference-value key of the text of
    the implementation identifier of the class identifier of the i-th
    selector; if the i-th selector is the first that has no class
    identifier, synthesis fails with the error for class i wrapping the
    error for a missing class identifier, and if it is the first of whose
    class identifier [GetImplID] fails, with the error for class i wrapping
    the extraction error and its cause; and no selector is skipped: one
    selector without class identifier, or with one of which [GetImplID]
    fails, makes synthesis fail. *)
Theorem C1_GenerateKey_class_selector_order (tenantID query : string)
    (q : Coserv.t) (classes : list comid.Class) :
  Coserv_FromBase64Url query = Ok q ->
  Coserv.Query_ArtifactType (Coserv.Coserv_Query q) = ArtifactTypeReferenceValues ->
  default [] (Coserv.Classes
                (Coserv.Query_EnvironmentSelector (Coserv.Coserv_Query q)))
  = classes ->
  ((forall c, c ∈ classes ->
      exists classID,
        comid.Class_ClassID c = Some classID
        /\ is_Ok (ClassID_GetImplID classID) = true) ->
   exists keys,
     synth.GenerateKey tenantID query = Ok keys
     /\ length keys = length classes
     /\ forall i c, classes !! i = Some c ->
          exists classID implID,
            comid.Class_ClassID c = Some classID
            /\ ClassID_GetImplID classID = Ok implID
            /\ keys !! i
               = Some (arm_RefValLookupKey SchemeName tenantID
                         (ImplID_String implID)))
  /\ (forall i c,
        classes !! i = Some c ->
        (forall j c', j < i -> classes !! j = Some c' ->
           exists classID,
             comid.Class_ClassID c' = Some classID
             /\ is_Ok (ClassID_GetImplID classID) = true) ->
        (comid.Class_ClassID c = None ->
         synth.GenerateKey tenantID query
         = Err (fmt_Errorf_w "creating lookup key for class[%d]: %w"
                  [ArgD (Z.of_nat i)] (errors_New "missing class-id")))
        /\ (forall classID e,
              comid.Class_ClassID c = Some classID ->
              ClassID_GetImplID classID = Err e ->
              synth.GenerateKey tenantID query
              = Err (fmt_Errorf_w "creating lookup key for class[%d]: %w"
                       [ArgD (Z.of_nat i)]
                       (fmt_Errorf_w
                          "could not extract implementation-id from class-id: %w"
                          [] e))))
  /\ ((exists c,
         c ∈ classes
         /\ (comid.Class_ClassID c = None
             \/ exists classID,
                  comid.Class_ClassID c = Some classID
                  /\ is_Ok (ClassID_GetImplID classID) = false)) ->
      is_Ok (synth.GenerateKey tenantID query) = false).
Proof.
  intros Hq Ht Hclasses.
  rewrite (GenerateKey_reference_values _ _ _ Hq Ht), Hclasses.
  split; [|split].
  - intros Hall.
    destruct (extractImplID_all classes) as [texts Htexts].
    { intros c Hc. apply extractImplID_is_Ok. by apply Hall. }
    exists (arm_RefValLookupKey SchemeName tenantID <$> texts).
    split; [exact (classes_loop_Ok _ _ _ 0 [] Htexts)|].
    split; [rewrite length_fmap; symmetry; by eapply Forall2_length|].
    intros i c Hi.
    destruct (Forall2_lookup_l _ _ _ _ _ Htexts Hi) as (text & Hid & Hc).
    destruct (extractImplID_Ok _ _ Hc) as (classID & implID & Hcid & Himpl & ->).
    exists classID, implID. split; [exact Hcid|]. split; [exact Himpl|].
    by rewrite list_lookup_fmap, Hid.
  - intros i c Hi Hbefore. split.
    + intros Hnone.
      exact (classes_loop_first_Err _ _ _ _ _ Hi Hbefore
               (extractImplID_missing _ Hnone)).
    + intros classID e Hcid Herr.
      exact (classes_loop_first_Err _ _ _ _ _ Hi Hbefore
               (extractImplID_Err _ _ _ Hcid Herr)).
  - intros (c & Hin & Hc). rewrite classes_loop_is_Ok.
    apply not_true_is_false. intros Hall.
    rewrite forallb_forall in Hall.
    apply list_elem_of_In in Hin. specialize (Hall c Hin).
    apply extractImplID_is_Ok in Hall as (classID & Hcid & Hok).
    destruct Hc as [Hnone|(classID' & Hcid' & Hfail)]; [congruence|].
    rewrite Hcid in Hcid'. injection Hcid' as <-. congruence.
Qed.

(** C3.  For every query whose artifact type is endorsed values, whatever
    its environment selector, resolution fails with the error of key
    synthesis for unsupported endorsed-value queries, and no call to the
    [Get] of the store has been made. *)
Theorem C3_endorsed_values_fail_before_store {S : Type}
    {st : Store.t (list string) S} (ed : S)
    (tenantID coservQuery mediaType : string) (q : Coserv.t) :
  Coserv_FromBase64Url coservQuery = Ok q ->
  Coserv.Query_ArtifactType (Coserv.Coserv_Query q) = ArtifactTypeEndorsedValues ->
  synth.GenerateKey tenantID coservQuery
  = Err (fmt_Errorf "CCA does not implement endorsed value queries" [])
  /\ synth.GetEndorsements ed tenantID coservQuery mediaType
     = (Err (fmt_Errorf_w "failed to generate key: %w" []
               (fmt_Errorf "CCA does not implement endorsed value queries" [])),
        []).
Proof.
  intros Hq Ht.
  assert (Hkey : synth.GenerateKey tenantID coservQuery
                 = Err (fmt_Errorf "CCA does not implement endorsed value queries" [])).
  { unfold synth.GenerateKey. by rewrite Hq, Ht. }
  split; [exact Hkey|].
  unfold synth.GetEndorsements. by rewrite Hq, Hkey.
Qed.
End SynthProperties.

(** The sample query with two class selectors gives two keys, in the
    order of the selectors. *)
Lemma C1_GenerateKey_class_selector_order_witness :
  exists keys,
    synth.GenerateKey (corim := examples.corim) "0" "rv-two-classes" = Ok keys
    /\ length keys = 2.
Proof.
  destruct (C1_GenerateKey_class_selector_order (corim := examples.corim)
              "0" "rv-two-classes" _ examples.two_classes eq_refl eq_refl eq_refl)
    as [Hkeys _].
  destruct Hkeys as (keys & Hgen & Hlen & _).
  - intros c Hc. apply list_elem_of_In in Hc.
    destruct Hc as [<-|[<-|[]]]; eexists; split; reflexivity.
  - exists keys. split; assumption.
Defined.

(** The key generator of package internal/coserv returns one key, not a
    list: for the query with the two class selectors 7f45 and 4c46 it is
    the key of the first selector, the key of the query that carries the
    first selector alone; no key is derived from the second selector. *)
Lemma C1_single_key_counterexample :
  length (EnvironmentSelector.Class
            (QueryObject.EnvironmentSelector (CoSERV.Query examples.classes_a_b)))
  = 2
  /\ coserv.GenerateKey examples.classes_a_b "0" = Ok "coserv://0/P/2/7f45"
  /\ coserv.GenerateKey
       (CoSERV.mk "P"
          (QueryObject.mk 2 (EnvironmentSelector.mk [examples.class_a] [])))
       "0"
     = Ok "coserv://0/P/2/7f45".
Proof. repeat split; vm_compute; reflexivity. Qed.

(** A selector without class identifier at index 1 is not skipped. *)
Example GenerateKey_second_class_without_id :
  synth.GenerateKey (corim := examples.corim) "0" "rv-second-class-without-id"
  = Err (fmt_Errorf_w "creating lookup key for class[%d]: %w" [ArgD 1]
           (errors_New "missing class-id")).
Proof. reflexivity. Qed.

Lemma C3_endorsed_values_fail_before_store_witness :
  (synth.GetEndorsements (corim := examples.corim) (st := examples.postgres)
     examples.no_rows "0" "ev-two-classes" api.EdApiMediaType).2 = [].
Proof.
  pose proof (C3_endorsed_values_fail_before_store (corim := examples.corim)
                (st := examples.postgres) examples.no_rows
                "0" "ev-two-classes" api.EdApiMediaType _ eq_refl eq_refl)
    as [_ Hfail].
  rewrite Hfail. reflexivity.
Defined.

(** ** The store *)

Section StoreProperties.
Context {enc : GoEncoding} {K : Type} {gokey : GoKey K}.

Lemma decode_loop_Ok (artifactArray : list string) (artifacts : list bytes) :
  store.decode_loop artifactArray artifacts
  = Ok (artifacts ++ (bytes_of_string <$> artifactArray)).
Proof.
  revert artifacts.
  induction artifactArray as [|a rest IH]; intros artifacts; simpl.
  - by rewrite app_nil_r.
  - rewrite IH. by rewrite <- app_assoc.
Qed.

(** An error of the loop over the rows wraps an error of the database or
    of the decoding. *)
Lemma rows_loop_Err (s : PostgresStore.t K) (rows : list string)
    (artifacts : list bytes) (e : error) :
  store.rows_loop s rows artifacts = Err e ->
  exists format args w, e = fmt_Errorf_w format args w.
Proof.
  revert artifacts. induction rows as [|val rest IH]; intros artifacts; simpl.
  - discriminate.
  - destruct (PostgresStore.failing s rows_Scan) as [err|].
    { intros [= <-]. eauto. }
    destruct (json_Unmarshal_strings _) as [artifactArray|err].
    + rewrite decode_loop_Ok. apply IH.
    + intros [= <-]. eauto.
Qed.

(** The guard of [Get]: a successful [Get] returns at least one
    artifact. *)
Lemma Get_Ok_nonempty (s : PostgresStore.t K) (key : K) (artifacts : list bytes) :
  store.Get s key = Ok artifacts -> artifacts <> [].
Proof.
  unfold store.Get.
  destruct (PostgresStore.failing s pool_Query); [discriminate|].
  destruct (store.rows_loop _ _ _) as [collected|]; [|discriminate].
  destruct (decide (length collected = 0)) as [|Hlen]; [discriminate|].
  intros [= <-]. by destruct collected.
Qed.

(** [Get] fails with the error for no artifacts exactly when the query
    succeeds and the loop over the selected rows ends with no artifact. *)
Lemma Get_no_artifacts (s : PostgresStore.t K) (key : K) :
  store.Get s key = Err (fmt_Errorf "no artifacts found for key: %s" [key_arg key])
  <-> PostgresStore.failing s pool_Query = None
      /\ store.rows_loop s (store.select_kv_val s key) [] = Ok [].
Proof.
  unfold store.Get. split.
  - destruct (PostgresStore.failing s pool_Query); [discriminate|].
    destruct (store.rows_loop _ _ _) as [collected|e] eqn:Hloop.
    + destruct (decide (length collected = 0)) as [Hlen|]; [|discriminate].
      intros _. split; [reflexivity|]. by destruct collected.
    + apply rows_loop_Err in Hloop as (format & args & w & ->). discriminate.
  - intros [-> ->]. reflexivity.
Qed.
End StoreProperties.

(** ** Writing and reading back *)

Lemma length_bytes_of_string (s : string) :
  length (bytes_of_string s) = String.length s.
Proof.
  unfold bytes_of_string, list_byte_of_string.
  rewrite length_map. induction s as [|c s IH]; simpl; [reflexivity | by f_equal].
Qed.

Lemma length_hex (b : bytes) : String.length (hex b) = 2 * length b.
Proof.
  induction b as [|x b IH]; [reflexivity|].
  simpl hex. rewrite length_append, IH. simpl. lia.
Qed.

(** The text stored for an artifact is its hexadecimal. *)
Lemma encodeArtifact_hex (data : bytes) : store.encodeArtifact data = hex data.
Proof. unfold store.encodeArtifact, Sprintf. simpl. apply append_nil_r. Qed.

(** An artifact is read back as written only if it is empty. *)
Lemma hex_text_differs (data : bytes) :
  bytes_of_string (store.encodeArtifact data) = data -> data = [].
Proof.
  intros Heq. apply (f_equal length) in Heq.
  rewrite length_bytes_of_string, encodeArtifact_hex, length_hex in Heq.
  destruct data; [reflexivity | simpl in Heq; lia].
Qed.

Section RoundTrip.
Context {enc : GoEncoding} {K : Type} {gokey : GoKey K}.

Lemma Set_artifactStrings (artifacts : list bytes) (acc : list string) :
  foldl (fun acc artifact => acc ++ [store.encodeArtifact artifact]) acc artifacts
  = acc ++ (store.encodeArtifact <$> artifacts).
Proof.
  revert acc. induction artifacts as [|a artifacts IH]; intros acc; simpl.
  - by rewrite app_nil_r.
  - rewrite IH. by rewrite <- app_assoc.
Qed.

Lemma select_after_replace (rows : list (K * string)) (key : K) (val : string) :
  (filter (fun row => row.1 = key)
     (filter (fun row => row.1 ≠ key) rows ++ [(key, val)])).*2 = [val].
Proof.
  rewrite filter_app.
  replace (filter (fun row => row.1 = key) (filter (fun row => row.1 ≠ key) rows))
    with (@nil (K * string)).
  - rewrite filter_cons_True by reflexivity. reflexivity.
  - symmetry. induction rows as [|row rows IH]; [reflexivity|].
    rewrite (filter_cons (fun row => row.1 ≠ key)).
    destruct (decide (row.1 ≠ key)) as [Hne|_]; [|exact IH].
    rewrite filter_cons_False by exact Hne. exact IH.
Qed.

(** [Get] after a successful [Set], when the database answers every call
    and the texts written unmarshal to themselves: every artifact comes
    back as the bytes of its hexadecimal text. *)
Lemma Get_after_Set (s : PostgresStore.t K) (key : K) (artifacts : list bytes)
    (val : bytes) :
  (forall call, PostgresStore.failing s call = None) ->
  json_Marshal_strings (store.encodeArtifact <$> artifacts) = Ok val ->
  json_Unmarshal_strings val = Ok (store.encodeArtifact <$> artifacts) ->
  artifacts <> [] ->
  (store.Set_ s key artifacts).1 = None
  /\ store.Get (store.Set_ s key artifacts).2 key
     = Ok ((fun data => bytes_of_string (hex data)) <$> artifacts).
Proof.
  intros Hdb Hmarshal Hunmarshal Hne. unfold store.Set_.
  rewrite (Set_artifactStrings artifacts []). simpl app. rewrite Hmarshal.
  rewrite !Hdb. simpl. split; [reflexivity|].
  unfold store.Get, store.select_kv_val. simpl.
  rewrite Hdb, select_after_replace. simpl. rewrite Hdb.
  unfold bytes_of_string at 1, string_of_bytes.
  rewrite list_byte_of_string_of_list_byte, Hunmarshal.
  rewrite decode_loop_Ok. simpl.
  rewrite <- list_fmap_compose.
  destruct artifacts as [|a artifacts]; [contradiction|]. simpl.
  f_equal. f_equal.
  - by rewrite encodeArtifact_hex.
  - apply list_fmap_ext. intros i x _. simpl. by rewrite encodeArtifact_hex.
Qed.
End RoundTrip.

(** C7.  [Set] of the one artifact 0xab under a key succeeds, and [Get] of
    that key then returns the two bytes of the text ab, not the artifact:
    [Set] writes the hexadecimal text of an artifact and [Get] returns the
    bytes of the text it reads.  No artifact but the empty one is read back
    as it was written. *)
Theorem C7_Get_after_Set_returns_hex_text :
  let written :=
    store.Set_ (enc := goref.encoding) (examples.no_rows (K := string)) "k"
      [[Byte.xab]] in
  written.1 = None
  /\ store.Get (enc := goref.encoding) written.2 "k" = Ok [[Byte.x61; Byte.x62]]
  /\ store.Get (enc := goref.encoding) written.2 "k" <> Ok [[Byte.xab]]
  /\ forall data, bytes_of_string (store.encodeArtifact data) = data -> data = [].
Proof.
  split; [reflexivity|].
  split; [vm_compute; reflexivity|].
  split; [vm_compute; discriminate|].
  exact hex_text_differs.
Qed.

(** ** Resolution (the revision on github.com/veraison/corim) *)


(** ** The handler *)

Lemma on_heap_below (next : nat) (e : error) :
  next < (on_heap next e).2
  /\ Forall (fun node => node.1 < (on_heap next e).2) (on_heap next e).1.
Proof.
  revert next. induction e as [text|format args|format args w IH|pkg text];
    intros next; simpl; try (split; [lia | repeat constructor; simpl; lia]).
  specialize (IH next). destruct (on_heap next w) as [inner next'].
  simpl in *. destruct IH as [Hlt Hall]. split; [lia|].
  constructor; [simpl; lia|].
  eapply Forall_impl; [exact Hall|]. simpl. intros node Hnode. lia.
Qed.

(** No object of an error is the object that [errors.New] makes
    afterwards. *)
Lemma errors_Is_fresh (err : errchain) (target : nat * error) :
  Forall (fun node => node.1 < target.1) err -> errors_Is err target = false.
Proof.
  induction 1 as [|[p e] err Hp _ IH]; simpl; [reflexivity|].
  simpl in Hp. destruct (decide (p = target.1)); [lia | exact IH].
Qed.

Section HandlerProperties.
Context {http : GoHTTP}.

(** A failed resolution is reported with status 400, whatever the
    error. *)
Lemma CoservRequest_Err (o : Handler.t) (next : nat) (c : Request.t) (e : error) :
  NegotiateFormat (Request.Header_Accept c) [api.EdApiMediaType] = api.EdApiMediaType ->
  Request.Param_query c <> "" ->
  Handler.EndorsementDistributor_GetEndorsements o api.tenantID
    (Request.Param_query c) (api.requested_mediaType (Request.Header_Accept c))
  = Err e ->
  api.CoservRequest o next c = api.reportProblem api.StatusBadRequest [Error e].
Proof.
  intros Hoffer Hquery Herr. unfold api.CoservRequest.
  rewrite Hoffer. destruct (decide (api.EdApiMediaType ≠ api.EdApiMediaType)); [done|].
  destruct (decide (Request.Param_query c = "")); [done|].
  rewrite Herr.
  pose proof (on_heap_below next e) as [_ Hbelow].
  destruct (on_heap next e) as [err next']. simpl in Hbelow.
  unfold errors_New_at.
  by rewrite (errors_Is_fresh err (next', errors_New "no artifacts found") Hbelow).
Qed.

(** The handler answers 406, 400 or 200, and 200 only with the result of a
    successful resolution, under the media type of the service without
    parameter. *)
Lemma CoservRequest_cases (o : Handler.t) (next : nat) (c : Request.t) :
  (exists details,
      api.CoservRequest o next c = api.reportProblem api.StatusNotAcceptable details)
  \/ (exists details,
         api.CoservRequest o next c = api.reportProblem api.StatusBadRequest details)
  \/ (exists res,
         Handler.EndorsementDistributor_GetEndorsements o api.tenantID
           (Request.Param_query c) (api.requested_mediaType (Request.Header_Accept c))
         = Ok res
         /\ api.CoservRequest o next c
            = Response.mk api.StatusOK api.EdApiMediaType (data_body res)).
Proof.
  unfold api.CoservRequest.
  destruct (decide (_ ≠ api.EdApiMediaType)) as [|Hoffer]; [left; eauto|].
  apply dec_stable in Hoffer.
  destruct (decide (Request.Param_query c = "")) as [|Hquery]; [right; left; eauto|].
  destruct (Handler.EndorsementDistributor_GetEndorsements _ _ _ _) as [res|e] eqn:Hres.
  - right. right. eauto.
  - right. left. exists [Error e].
    pose proof (CoservRequest_Err o next c e Hoffer Hquery Hres) as Hreq.
    unfold api.CoservRequest in Hreq. rewrite Hoffer in Hreq.
    destruct (decide (api.EdApiMediaType ≠ api.EdApiMediaType)); [done|].
    destruct (decide (Request.Param_query c = "")); [done|].
    by rewrite Hres in Hreq.
Qed.
End HandlerProperties.

(** C6.  The handler never answers 404.  On the query of the test script
    over a table without rows, resolution fails for want of artifacts and
    the handler answers 400. *)
Theorem C6_no_artifacts_answered_400 (next : nat) :
  (forall (http : GoHTTP) (o : Handler.t) (next : nat) (c : Request.t),
      Response.status (api.CoservRequest o next c) <> api.StatusNotFound)
  /\ store.GetEndorsements (enc := goref.encoding) (st := examples.postgres)
       examples.no_rows api.tenantID examples.rv_query
       (api.requested_mediaType (http := httpref.http) examples.accept)
     = Err (fmt_Errorf_w "failed to get artifacts: %w" []
              (fmt_Errorf "no artifacts found for key: %s" [ArgS examples.rv_key]))
  /\ api.CoservRequest (http := httpref.http) (examples.handler examples.no_rows)
       next examples.request
     = api.reportProblem 400
         ["failed to get artifacts: no artifacts found for key: " +:+ examples.rv_key].
Proof.
  split; [|split].
  - intros http o next' c.
    destruct (CoservRequest_cases o next' c)
      as [[details ->]|[[details ->]|(res & _ & ->)]]; simpl; discriminate.
  - vm_compute. reflexivity.
  - rewrite CoservRequest_Err
      with (e := fmt_Errorf_w "failed to get artifacts: %w" []
                   (fmt_Errorf "no artifacts found for key: %s"
                      [ArgS examples.rv_key])).
    + reflexivity.
    + vm_compute. reflexivity.
    + discriminate.
    + vm_compute. reflexivity.
Qed.

(** C9.  A response with status 200 has the media type of the service as
    its content type, without parameter.  On the request of the test
    script, whose Accept header carries a profile, over a table with an
    artifact under the key of the query, the handler computes the media
    type with the profile and answers 200 with the content type without
    it. *)
Theorem C9_profile_not_echoed (next : nat) :
  (forall (http : GoHTTP) (o : Handler.t) (next : nat) (c : Request.t),
      Response.status (api.CoservRequest o next c) = api.StatusOK ->
      Response.Content_Type (api.CoservRequest o next c) = api.EdApiMediaType)
  /\ api.requested_mediaType (http := httpref.http)
       (Request.Header_Accept examples.request)
     = "application/coserv+cbor; profile=" +:+ httpref.Quote examples.profile
  /\ Response.status
       (api.CoservRequest (http := httpref.http) (examples.handler examples.one_row)
          next examples.request) = 200%Z
  /\ Response.Content_Type
       (api.CoservRequest (http := httpref.http) (examples.handler examples.one_row)
          next examples.request) = "application/coserv+cbor".
Proof.
  split; [|split; [|split]].
  - intros http o next' c.
    destruct (CoservRequest_cases o next' c)
      as [[details ->]|[[details ->]|(res & _ & ->)]]; simpl;
      [discriminate | discriminate | reflexivity].
  - vm_compute. reflexivity.
  - vm_compute. reflexivity.
  - vm_compute. reflexivity.
Qed.

(** * Further properties *)

(** ** The store: reading *)

Lemma filter_none {A : Type} (P : A -> Prop) `{forall x, Decision (P x)}
    (l : list A) :
  (forall x, x ∈ l -> ~ P x) -> filter P l = [].
Proof.
  induction l as [|x l IH]; intros Hnone; [reflexivity|].
  rewrite filter_cons_False by (apply Hnone; by left).
  apply IH. intros y Hy. apply Hnone. by right.
Qed.

Section GetProperties.
Context {enc : GoEncoding} {K : Type} {gokey : GoKey K}.

(** The loop over the rows when every row is scanned and unmarshals. *)
Lemma rows_loop_parsed (s : PostgresStore.t K) (rows : list string)
    (arrays : list (list string)) (artifacts : list bytes) :
  PostgresStore.failing s rows_Scan = None ->
  Forall2 (fun val artifactArray =>
             json_Unmarshal_strings (bytes_of_string val) = Ok artifactArray)
          rows arrays ->
  store.rows_loop s rows artifacts
  = Ok (artifacts ++ (bytes_of_string <$> concat arrays)).
Proof.
  intros Hscan Hrows. revert artifacts.
  induction Hrows as [|val arr rows arrays Hval _ IH]; intros artifacts; simpl.
  - by rewrite app_nil_r.
  - rewrite Hscan, Hval, decode_loop_Ok, IH.
    by rewrite fmap_app, app_assoc.
Qed.

(** The first row that does not unmarshal ends the loop. *)
Lemma rows_loop_malformed (s : PostgresStore.t K) (before after : list string)
    (bad : string) (e : error) (artifacts : list bytes) :
  PostgresStore.failing s rows_Scan = None ->
  Forall (fun val => is_Ok (json_Unmarshal_strings (bytes_of_string val)) = true)
         before ->
  json_Unmarshal_strings (bytes_of_string bad) = Err e ->
  store.rows_loop s (before ++ bad :: after) artifacts
  = Err (fmt_Errorf_w "failed to unmarshal artifacts: %w" [] e).
Proof.
  intros Hscan Hbefore Hbad. revert artifacts.
  induction Hbefore as [|val before Hval _ IH]; intros artifacts; simpl.
  - by rewrite Hscan, Hbad.
  - rewrite Hscan.
    destruct (json_Unmarshal_strings (bytes_of_string val)); [|discriminate].
    rewrite decode_loop_Ok. apply IH.
Qed.

(** The errors of the loop over the rows. *)
Lemma rows_loop_errors (s : PostgresStore.t K) (rows : list string)
    (artifacts : list bytes) (e : error) :
  store.rows_loop s rows artifacts = Err e ->
  (exists err, PostgresStore.failing s rows_Scan = Some err
               /\ e = fmt_Errorf_w "failed to scan row: %w" [] err)
  \/ (exists val err,
         val ∈ rows
         /\ json_Unmarshal_strings (bytes_of_string val) = Err err
         /\ e = fmt_Errorf_w "failed to unmarshal artifacts: %w" [] err).
Proof.
  revert artifacts. induction rows as [|val rest IH]; intros artifacts; simpl.
  - discriminate.
  - destruct (PostgresStore.failing s rows_Scan) as [err|] eqn:Hscan.
    { intros [= <-]. left. eauto. }
    destruct (json_Unmarshal_strings (bytes_of_string val)) as [arr|err] eqn:Hval.
    + rewrite decode_loop_Ok. intros Hrest.
      destruct (IH _ Hrest) as [(err & [=] & _)|(val' & err & Hin & Herr & ->)].
      right. exists val', err. split; [by right|]. by split.
    + intros [= <-]. right. exists val, err. split; [by left|]. by split.
Qed.

(** X1.  When the database answers the query and the scans, and every row
    under the key holds the JSON text of an array of strings, [Get] returns
    the strings of all those rows as byte strings, row after row in the
    order of the table and in the order of each array; if that makes no
    artifact at all (no row under the key, or only empty arrays) it fails
    with the error for no artifacts. *)
Theorem X1_Get_concatenates_rows (s : PostgresStore.t K) (key : K)
    (arrays : list (list string)) :
  PostgresStore.failing s pool_Query = None ->
  PostgresStore.failing s rows_Scan = None ->
  Forall2 (fun val artifactArray =>
             json_Unmarshal_strings (bytes_of_string val) = Ok artifactArray)
          (store.select_kv_val s key) arrays ->
  store.Get s key
  = if decide (concat arrays = [])
    then Err (fmt_Errorf "no artifacts found for key: %s" [key_arg key])
    else Ok (bytes_of_string <$> concat arrays).
Proof.
  intros Hquery Hscan Hrows. unfold store.Get.
  rewrite Hquery, (rows_loop_parsed s _ arrays [] Hscan Hrows). simpl.
  destruct (concat arrays) as [|a rest]; simpl.
  - by destruct (decide (@nil string = [])).
  - destruct (decide (a :: rest = [])); [discriminate | reflexivity].
Qed.

(** X2.  [Get] of a key under which the table has no row fails with the
    error for no artifacts, whatever the other rows hold, as soon as the
    database answers the query. *)
Theorem X2_Get_missing_key (s : PostgresStore.t K) (key : K) :
  PostgresStore.failing s pool_Query = None ->
  (forall row, row ∈ PostgresStore.endorsements s -> row.1 <> key) ->
  store.Get s key
  = Err (fmt_Errorf "no artifacts found for key: %s" [key_arg key]).
Proof.
  intros Hquery Hnone. apply Get_no_artifacts. split; [exact Hquery|].
  unfold store.select_kv_val.
  rewrite (filter_none (fun row : K * string => row.1 = key)); [reflexivity|].
  exact Hnone.
Qed.

(** X3.  One row under the key that does not unmarshal makes [Get] fail
    with the error of that row, whatever the rows before it and after it
    hold: [Get] returns all the artifacts under a key or none. *)
Theorem X3_Get_malformed_row (s : PostgresStore.t K) (key : K)
    (before after : list string) (bad : string) (e : error) :
  PostgresStore.failing s pool_Query = None ->
  PostgresStore.failing s rows_Scan = None ->
  store.select_kv_val s key = before ++ bad :: after ->
  Forall (fun val => is_Ok (json_Unmarshal_strings (bytes_of_string val)) = true)
         before ->
  json_Unmarshal_strings (bytes_of_string bad) = Err e ->
  store.Get s key = Err (fmt_Errorf_w "failed to unmarshal artifacts: %w" [] e).
Proof.
  intros Hquery Hscan Hrows Hbefore Hbad. unfold store.Get.
  rewrite Hquery, Hrows.
  by rewrite (rows_loop_malformed s before after bad e [] Hscan Hbefore Hbad).
Qed.

(** X4.  The outcomes of [Get]: at least one artifact, or one of four
    errors: the query failed, a scan failed, a row under the key did not
    unmarshal, or there was no artifact.  The error for an artifact that
    does not decode is never returned. *)
Theorem X4_Get_outcomes (s : PostgresStore.t K) (key : K) :
  match store.Get s key with
  | Ok artifacts => artifacts <> []
  | Err e =>
      (exists err, PostgresStore.failing s pool_Query = Some err
                   /\ e = fmt_Errorf_w "failed to query database: %w" [] err)
      \/ (exists err, PostgresStore.failing s rows_Scan = Some err
                      /\ store.select_kv_val s key <> []
                      /\ e = fmt_Errorf_w "failed to scan row: %w" [] err)
      \/ (exists val err,
             val ∈ store.select_kv_val s key
             /\ json_Unmarshal_strings (bytes_of_string val) = Err err
             /\ e = fmt_Errorf_w "failed to unmarshal artifacts: %w" [] err)
      \/ e = fmt_Errorf "no artifacts found for key: %s" [key_arg key]
  end.
Proof.
  destruct (store.Get s key) as [artifacts|e] eqn:Hget.
  - by eapply Get_Ok_nonempty.
  - unfold store.Get in Hget.
    destruct (PostgresStore.failing s pool_Query) as [err|].
    { injection Hget as <-. left. eauto. }
    destruct (store.rows_loop s (store.select_kv_val s key) [])
      as [collected|e'] eqn:Hloop.
    + destruct (decide (length collected = 0)); [|discriminate].
      injection Hget as <-. by do 3 right.
    + injection Hget as <-.
      destruct (rows_loop_errors _ _ _ _ Hloop)
        as [(err & Hscan & ->)|(val & err & Hin & Herr & ->)].
      * right. left. exists err. split; [exact Hscan|]. split; [|reflexivity].
        intros Hnil. rewrite Hnil in Hloop. discriminate.
      * right. right. left. eauto.
Qed.
End GetProperties.

(** ** The store: writing *)

Section SetProperties.
Context {enc : GoEncoding} {K : Type} {gokey : GoKey K}.

Lemma select_other_key (rows : list (K * string)) (key key' : K) (val : string) :
  key' <> key ->
  filter (fun row => row.1 = key')
         (filter (fun row => row.1 ≠ key) rows ++ [(key, val)])
  = filter (fun row => row.1 = key') rows.
Proof.
  intros Hne. rewrite filter_app.
  rewrite (filter_cons_False _ (key, val)) by (simpl; congruence).
  rewrite filter_nil, app_nil_r.
  induction rows as [|row rows IH]; [reflexivity|].
  rewrite (filter_cons (fun row => row.1 ≠ key)), (filter_cons (fun row => row.1 = key')).
  destruct (decide (row.1 ≠ key)) as [Hrow|Hrow].
  - rewrite filter_cons. destruct (decide (row.1 = key')); by rewrite IH.
  - apply dec_stable in Hrow.
    destruct (decide (row.1 = key')); [congruence | exact IH].
Qed.

(** The loop over the rows reads of the store only how scans are
    answered. *)
Lemma rows_loop_same_scans (s1 s2 : PostgresStore.t K) (rows : list string)
    (artifacts : list bytes) :
  PostgresStore.failing s1 rows_Scan = PostgresStore.failing s2 rows_Scan ->
  store.rows_loop s1 rows artifacts = store.rows_loop s2 rows artifacts.
Proof.
  intros Hscan. revert artifacts.
  induction rows as [|val rest IH]; intros artifacts; simpl; [reflexivity|].
  rewrite Hscan. destruct (PostgresStore.failing s2 rows_Scan); [reflexivity|].
  destruct (json_Unmarshal_strings _); [|reflexivity].
  destruct (store.decode_loop _ _); [apply IH | reflexivity].
Qed.

(** The store after [Set]: as it was, or with the rows of the key replaced
    by one row. *)
Lemma Set_cases (s : PostgresStore.t K) (key : K) (artifacts : list bytes) :
  (exists e, store.Set_ s key artifacts = (Some e, s))
  \/ (exists val,
         json_Marshal_strings (store.encodeArtifact <$> artifacts) = Ok val
         /\ PostgresStore.failing s pool_Begin = None
         /\ PostgresStore.failing s tx_Exec_delete = None
         /\ PostgresStore.failing s tx_Exec_insert = None
         /\ PostgresStore.failing s tx_Commit = None
         /\ store.Set_ s key artifacts
            = (None,
               PostgresStore.mk
                 (filter (fun row => row.1 ≠ key) (PostgresStore.endorsements s)
                  ++ [(key, string_of_bytes val)])
                 (PostgresStore.failing s))).
Proof.
  unfold store.Set_. rewrite (Set_artifactStrings artifacts []). simpl app.
  destruct (json_Marshal_strings _) as [val|err]; [|left; eauto].
  destruct (PostgresStore.failing s pool_Begin); [left; eauto|].
  destruct (PostgresStore.failing s tx_Exec_delete); [left; eauto|].
  destruct (PostgresStore.failing s tx_Exec_insert); [left; eauto|].
  destruct (PostgresStore.failing s tx_Commit); [left; eauto|].
  right. exists val. repeat split; reflexivity.
Qed.

(** X5.  [Set] of a key changes nothing for any other key: whether it
    succeeds or fails, [Get] of another key returns afterwards what it
    returned before. *)
Theorem X5_Set_leaves_other_keys (s : PostgresStore.t K) (key key' : K)
    (artifacts : list bytes) :
  key' <> key ->
  store.Get (store.Set_ s key artifacts).2 key' = store.Get s key'.
Proof.
  intros Hne.
  destruct (Set_cases s key artifacts) as [[e ->]|(val & _ & _ & _ & _ & _ & ->)];
    [reflexivity|].
  unfold store.Get, store.select_kv_val. simpl.
  rewrite (select_other_key _ key key' _ Hne).
  destruct (PostgresStore.failing s pool_Query); [reflexivity|].
  by rewrite (rows_loop_same_scans _ s).
Qed.

(** X6.  [Set] is all or nothing: it succeeds exactly when the artifacts
    marshal and the database answers the begin, the delete, the insert and
    the commit; when it fails the store is as it was before, and in every
    case the rows of other keys are kept in their order. *)
Theorem X6_Set_all_or_nothing (s : PostgresStore.t K) (key : K)
    (artifacts : list bytes) :
  ((store.Set_ s key artifacts).1 = None
   <-> is_Ok (json_Marshal_strings (store.encodeArtifact <$> artifacts)) = true
       /\ PostgresStore.failing s pool_Begin = None
       /\ PostgresStore.failing s tx_Exec_delete = None
       /\ PostgresStore.failing s tx_Exec_insert = None
       /\ PostgresStore.failing s tx_Commit = None)
  /\ ((store.Set_ s key artifacts).1 <> None -> (store.Set_ s key artifacts).2 = s)
  /\ filter (fun row => row.1 ≠ key)
        (PostgresStore.endorsements (store.Set_ s key artifacts).2)
     = filter (fun row => row.1 ≠ key) (PostgresStore.endorsements s).
Proof.
  unfold store.Set_. rewrite (Set_artifactStrings artifacts []). simpl app.
  destruct (json_Marshal_strings _) as [val|err]; simpl.
  2:{ split; [split; [discriminate | intros (? & _); discriminate]|]. by split. }
  destruct (PostgresStore.failing s pool_Begin); simpl.
  { split; [split; [discriminate | intros (_ & ? & _); discriminate]|]. by split. }
  destruct (PostgresStore.failing s tx_Exec_delete); simpl.
  { split; [split; [discriminate | intros (_ & _ & ? & _); discriminate]|]. by split. }
  destruct (PostgresStore.failing s tx_Exec_insert); simpl.
  { split; [split; [discriminate | intros (_ & _ & _ & ? & _); discriminate]|].
    by split. }
  destruct (PostgresStore.failing s tx_Commit); simpl.
  { split; [split; [discriminate | intros (_ & _ & _ & _ & ?); discriminate]|].
    by split. }
  split; [done|]. split; [done|].
  rewrite filter_app, (filter_cons_False _ (key, _)) by (simpl; tauto).
  rewrite filter_nil, app_nil_r.
  rewrite list_filter_filter. apply list_filter_iff. tauto.
Qed.

(** X7.  After a successful [Set] the table has exactly one row under the
    key; and when a second [Set] of the same key succeeds as well, the
    table holds the rows of the other keys as they were before the first,
    followed by the one row of the second, whatever the first had written:
    the store is as a single successful [Set] of the second list leaves it.
    The last write wins. *)
Theorem X7_Set_overwrites (s : PostgresStore.t K) (key : K)
    (first second : list bytes) :
  (store.Set_ s key first).1 = None ->
  (store.Set_ (store.Set_ s key first).2 key second).1 = None ->
  length (store.select_kv_val (store.Set_ s key first).2 key) = 1
  /\ (exists val,
        json_Marshal_strings (store.encodeArtifact <$> second) = Ok val
        /\ PostgresStore.endorsements
             (store.Set_ (store.Set_ s key first).2 key second).2
           = filter (fun row => row.1 ≠ key) (PostgresStore.endorsements s)
             ++ [(key, string_of_bytes val)])
  /\ ((store.Set_ s key second).1 = None ->
      (store.Set_ (store.Set_ s key first).2 key second).2
      = (store.Set_ s key second).2).
Proof.
  intros Hfirst Hsecond.
  destruct (Set_cases s key first)
    as [[e He]|(val1 & _ & _ & _ & _ & _ & Hset1)].
  { rewrite He in Hfirst. discriminate. }
  rewrite Hset1 in Hsecond |- *. clear Hfirst. simpl in Hsecond |- *.
  split.
  { unfold store.select_kv_val. simpl. by rewrite select_after_replace. }
  remember (PostgresStore.mk
              (filter (fun row => row.1 ≠ key) (PostgresStore.endorsements s)
               ++ [(key, string_of_bytes val1)])
              (PostgresStore.failing s)) as s1 eqn:Hs1.
  assert (Hrows : filter (fun row => row.1 ≠ key) (PostgresStore.endorsements s1)
                  = filter (fun row => row.1 ≠ key) (PostgresStore.endorsements s)).
  { rewrite Hs1. simpl.
    rewrite filter_app, (filter_cons_False _ (key, _)) by (simpl; tauto).
    rewrite filter_nil, app_nil_r.
    rewrite list_filter_filter. apply list_filter_iff. tauto. }
  destruct (Set_cases s1 key second)
    as [[e He]|(val2 & Hval2 & _ & _ & _ & _ & Hset2)].
  { rewrite He in Hsecond. discriminate. }
  rewrite Hset2. simpl. rewrite Hrows. split.
  { exists val2. by split. }
  intros Honly.
  destruct (Set_cases s key second)
    as [[e He]|(val & Hval & _ & _ & _ & _ & Hset)].
  { rewrite He in Honly. discriminate. }
  rewrite Hset. rewrite Hval in Hval2. injection Hval2 as ->.
  f_equal. rewrite Hs1. reflexivity.
Qed.

(** X8.  [Set] of an empty list of artifacts succeeds and stores a row,
    and [Get] of the key then fails with the error for no artifacts: a key
    with an empty list reads as a key that is missing. *)
Theorem X8_Set_empty_then_Get (s : PostgresStore.t K) (key : K) (val : bytes) :
  (forall call, PostgresStore.failing s call = None) ->
  json_Marshal_strings [] = Ok val ->
  json_Unmarshal_strings val = Ok [] ->
  (store.Set_ s key []).1 = None
  /\ store.select_kv_val (store.Set_ s key []).2 key = [string_of_bytes val]
  /\ store.Get (store.Set_ s key []).2 key
     = Err (fmt_Errorf "no artifacts found for key: %s" [key_arg key]).
Proof.
  intros Hdb Hmarshal Hunmarshal.
  destruct (Set_cases s key []) as [[e He]|(val' & Hval' & _ & _ & _ & _ & Hset)].
  { unfold store.Set_ in He. simpl in He. rewrite Hmarshal, !Hdb in He.
    discriminate. }
  simpl in Hval'. rewrite Hmarshal in Hval'. injection Hval' as <-.
  rewrite Hset. simpl. split; [reflexivity|].
  assert (Hrows : store.select_kv_val
                    (PostgresStore.mk
                       (filter (fun row => row.1 ≠ key) (PostgresStore.endorsements s)
                        ++ [(key, string_of_bytes val)])
                       (PostgresStore.failing s)) key
                  = [string_of_bytes val]).
  { unfold store.select_kv_val. simpl. apply select_after_replace. }
  split; [exact Hrows|].
  apply Get_no_artifacts. simpl. split; [apply Hdb|].
  rewrite Hrows. simpl. rewrite Hdb.
  unfold bytes_of_string, string_of_bytes.
  by rewrite list_byte_of_string_of_list_byte, Hunmarshal.
Qed.
End SetProperties.

(** ** The store: examples *)

Lemma X1_Get_concatenates_rows_witness :
  store.Get (enc := goref.encoding) samples.three_rows "k"
  = Ok [bytes_of_string "a"; bytes_of_string "b"; bytes_of_string "c"].
Proof.
  refine (X1_Get_concatenates_rows (enc := goref.encoding) samples.three_rows "k"
            [["a"; "b"]; ["c"]] eq_refl eq_refl _).
  repeat constructor.
Defined.

Lemma X2_Get_missing_key_witness :
  store.Get (enc := goref.encoding) samples.three_rows "absent"
  = Err (fmt_Errorf "no artifacts found for key: %s" [ArgS "absent"]).
Proof.
  refine (X2_Get_missing_key (enc := goref.encoding) (gokey := string_GoKey)
            samples.three_rows "absent" eq_refl _).
  intros row Hrow. apply list_elem_of_In in Hrow.
  destruct Hrow as [<-|[<-|[<-|[]]]]; discriminate.
Defined.

Lemma X3_Get_malformed_row_witness :
  store.Get (enc := goref.encoding) samples.malformed_row "k"
  = Err (fmt_Errorf_w "failed to unmarshal artifacts: %w" []
           (lib_error "encoding/json" "invalid JSON text")).
Proof.
  refine (X3_Get_malformed_row (enc := goref.encoding) samples.malformed_row "k"
            [samples.array_text ["a"]] [samples.array_text ["c"]] "not json" _
            eq_refl eq_refl eq_refl _ eq_refl).
  repeat constructor.
Defined.

Lemma X5_Set_leaves_other_keys_witness :
  store.Get (enc := goref.encoding)
    (store.Set_ (enc := goref.encoding) samples.three_rows "k" [[Byte.xab]]).2 "other"
  = store.Get (enc := goref.encoding) samples.three_rows "other".
Proof.
  apply (X5_Set_leaves_other_keys (enc := goref.encoding) samples.three_rows
           "k" "other" [[Byte.xab]]).
  discriminate.
Defined.

Lemma X7_Set_overwrites_witness :
  (store.Set_ (enc := goref.encoding)
     (store.Set_ (enc := goref.encoding) samples.three_rows "k" [[Byte.xab]]).2
     "k" [[Byte.xcd]]).2
  = (store.Set_ (enc := goref.encoding) samples.three_rows "k" [[Byte.xcd]]).2.
Proof.
  exact (proj2 (proj2 (X7_Set_overwrites (enc := goref.encoding) samples.three_rows
                         "k" [[Byte.xab]] [[Byte.xcd]] eq_refl eq_refl))
           eq_refl).
Defined.

Lemma X8_Set_empty_then_Get_witness :
  store.Get (enc := goref.encoding)
    (store.Set_ (enc := goref.encoding) samples.three_rows "k" []).2 "k"
  = Err (fmt_Errorf "no artifacts found for key: %s" [ArgS "k"]).
Proof.
  exact (proj2 (proj2 (X8_Set_empty_then_Get (enc := goref.encoding)
                         samples.three_rows "k" (bytes_of_string "null")
                         (fun _ => eq_refl) eq_refl eq_refl))).
Defined.

(** ** Hexadecimal text *)

Lemma unhex_hex_byte (x : Byte.byte) (rest : string) :
  hexread.unhex (hex_byte x +:+ rest)
  = (tail ← hexread.unhex rest; Some (x :: tail)).
Proof. destruct x; reflexivity. Qed.

Lemma unhex_hex (b : bytes) : hexread.unhex (hex b) = Some b.
Proof.
  induction b as [|x b IH]; [reflexivity|].
  simpl hex. rewrite unhex_hex_byte, IH. reflexivity.
Qed.

Lemma hex_inj (a b : bytes) : hex a = hex b -> a = b.
Proof.
  intros Heq. apply (f_equal hexread.unhex) in Heq.
  rewrite !unhex_hex in Heq. congruence.
Qed.

(** X9.  The text that [Set] stores for an artifact determines the
    artifact: it reads back as the artifact, two artifacts with the same
    text are equal, and the text has two characters for each byte. *)
Theorem X9_encodeArtifact_loses_nothing :
  (forall data, hexread.unhex (store.encodeArtifact data) = Some data)
  /\ (forall data1 data2,
        store.encodeArtifact data1 = store.encodeArtifact data2 -> data1 = data2)
  /\ (forall data,
        String.length (store.encodeArtifact data) = 2 * length data).
Proof.
  split; [|split].
  - intros data. rewrite encodeArtifact_hex. apply unhex_hex.
  - intros data1 data2. rewrite !encodeArtifact_hex. apply hex_inj.
  - intros data. rewrite encodeArtifact_hex. apply length_hex.
Qed.

(** ** Decoding: padding and alphabet *)

Lemma length_ReplaceAll (s : string) (old new : ascii) :
  String.length (coserv.strings_ReplaceAll s old new) = String.length s.
Proof. induction s as [|c s IH]; simpl; [reflexivity | by rewrite IH]. Qed.

Lemma ReplaceAll_append (s1 s2 : string) (old new : ascii) :
  coserv.strings_ReplaceAll (s1 +:+ s2) old new
  = coserv.strings_ReplaceAll s1 old new +:+ coserv.strings_ReplaceAll s2 old new.
Proof.
  induction s1 as [|c s1 IH]; [reflexivity|].
  rewrite append_cons. simpl. rewrite IH. reflexivity.
Qed.

Lemma ReplaceAll_padding (k : nat) (old new : ascii) :
  old <> goref.pad_char ->
  coserv.strings_ReplaceAll (padding k) old new = padding k.
Proof.
  intros Hold. induction k as [|k IH]; [reflexivity|].
  cbn [padding coserv.strings_ReplaceAll]. rewrite IH.
  destruct (Ascii.eqb_spec goref.pad_char old); [congruence | reflexivity].
Qed.

Lemma length_padding (k : nat) : String.length (padding k) = k.
Proof. induction k as [|k IH]; simpl; [reflexivity | by rewrite IH]. Qed.

(** The number of characters missing to a multiple of four. *)
Lemma missing_step (n : nat) :
  n mod 4 <> 0 -> (4 - n mod 4) mod 4 = S ((4 - (n + 1) mod 4) mod 4).
Proof.
  intros Hn.
  pose proof (Nat.mod_upper_bound n 4 ltac:(lia)) as Hlt.
  rewrite <- (Nat.Div0.add_mod_idemp_l n 1 4).
  destruct (n mod 4) as [|[|[|[|m]]]]; try lia; reflexivity.
Qed.

Lemma missing_zero (n : nat) : n mod 4 = 0 -> (4 - n mod 4) mod 4 = 0.
Proof. intros ->. reflexivity. Qed.

Lemma pad_loop_shape (fuel : nat) (encoded : string) :
  (4 - String.length encoded mod 4) mod 4 <= fuel ->
  coserv.pad_loop fuel encoded
  = encoded +:+ padding ((4 - String.length encoded mod 4) mod 4).
Proof.
  revert encoded. induction fuel as [|fuel IH]; intros encoded Hfuel;
    cbn [coserv.pad_loop].
  - replace ((4 - String.length encoded mod 4) mod 4) with 0 by lia.
    simpl. by rewrite append_nil_r.
  - destruct (decide (String.length encoded mod 4 ≠ 0)) as [Hn|Hn].
    + rewrite (missing_step _ Hn) in *.
      rewrite IH; rewrite length_append; simpl String.length; [|lia].
      simpl padding. rewrite append_assoc. reflexivity.
    + apply dec_stable in Hn. rewrite (missing_zero _ Hn). simpl.
      by rewrite append_nil_r.
Qed.

Lemma missing_le_3 (n : nat) : (4 - n mod 4) mod 4 <= 3.
Proof. pose proof (Nat.mod_upper_bound (4 - n mod 4) 4 ltac:(lia)). lia. Qed.

(** X10.  The padding loop appends to the text the characters [=] that
    are missing to a multiple of four, at most three of them, and nothing
    when the length is a multiple of four already; the text itself is
    kept. *)
Theorem X10_padding_added (encoded : string) :
  let missing := (4 - String.length encoded mod 4) mod 4 in
  coserv.pad_loop 3 encoded = encoded +:+ padding missing
  /\ missing <= 3
  /\ String.length (coserv.pad_loop 3 encoded) = String.length encoded + missing
  /\ (String.length encoded mod 4 = 0 -> coserv.pad_loop 3 encoded = encoded).
Proof.
  intros missing. subst missing.
  pose proof (missing_le_3 (String.length encoded)) as Hle.
  rewrite (pad_loop_shape 3 encoded Hle).
  split; [reflexivity|]. split; [exact Hle|].
  split; [by rewrite length_append, length_padding|].
  intros Hn. rewrite (missing_zero _ Hn). simpl. apply append_nil_r.
Qed.

Section DecodeInsensitive.
Context {enc : GoEncoding}.

Lemma ReplaceAll_normal (c : ascii) :
  let once :=
    (if Ascii.eqb (if Ascii.eqb c "-" then "+" else c) "_" then "/"
     else (if Ascii.eqb c "-" then "+" else c))%char in
  (if Ascii.eqb (if Ascii.eqb once "-" then "+" else once) "_" then "/"
   else (if Ascii.eqb once "-" then "+" else once))%char = once.
Proof.
  simpl.
  destruct (Ascii.eqb_spec c "-"%char) as [->|Hminus]; [reflexivity|].
  destruct (Ascii.eqb_spec c "_"%char) as [->|Hunder]; [reflexivity|].
  destruct (Ascii.eqb_spec c "-"%char); [contradiction|].
  destruct (Ascii.eqb_spec c "_"%char); [contradiction | reflexivity].
Qed.

Lemma ReplaceAll_twice (s : string) :
  coserv.strings_ReplaceAll
    (coserv.strings_ReplaceAll
       (coserv.strings_ReplaceAll (coserv.strings_ReplaceAll s "-" "+") "_" "/")
       "-" "+") "_" "/"
  = coserv.strings_ReplaceAll (coserv.strings_ReplaceAll s "-" "+") "_" "/".
Proof.
  induction s as [|c s IH]; [reflexivity|].
  cbn [coserv.strings_ReplaceAll]. rewrite IH. f_equal.
  apply ReplaceAll_normal.
Qed.

(** X11.  Decoding does not tell the URL-safe alphabet from the standard
    one, nor a padded text from an unpadded one: the input with [-] and [_]
    already replaced by [+] and [/], and the input followed by the padding
    it lacks, decode as the input itself, error included. *)
Theorem X11_alphabet_and_padding_accepted (c : CoSERV.t) (encoded : string) :
  coserv.FromBase64Url c
    (coserv.strings_ReplaceAll (coserv.strings_ReplaceAll encoded "-" "+") "_" "/")
  = coserv.FromBase64Url c encoded
  /\ coserv.FromBase64Url c
       (encoded
        +:+ padding ((4 - String.length encoded mod 4) mod 4))
     = coserv.FromBase64Url c encoded.
Proof.
  unfold coserv.FromBase64Url. split.
  - by rewrite ReplaceAll_twice.
  - rewrite !ReplaceAll_append, !ReplaceAll_padding by discriminate.
    set (t := coserv.strings_ReplaceAll
                (coserv.strings_ReplaceAll encoded "-" "+") "_" "/").
    assert (Hlen : String.length t = String.length encoded).
    { subst t. by rewrite !length_ReplaceAll. }
    rewrite <- Hlen.
    rewrite <- (pad_loop_shape 3 t (missing_le_3 _)).
    rewrite (pad_loop_shape 3 (coserv.pad_loop 3 t) (missing_le_3 _)).
    rewrite (missing_zero _ (pad_loop_exit t)). simpl.
    by rewrite append_nil_r.
Qed.
End DecodeInsensitive.

(** ** Key synthesis: trust anchors and the other list *)

Section SynthMore.
Context {types : CorimTypes} {corim : Corim}.

Lemma instances_loop_Ok (tenantID : string) (instances : list Instance)
    (instIDs : list string) (i : nat) (keys : list string) :
  Forall2 (fun v instID => synth.extractInstID v = Ok instID) instances instIDs ->
  synth.instances_loop tenantID i instances keys
  = Ok (keys ++ (arm_TaCoservLookupKey SchemeName tenantID <$> instIDs)).
Proof.
  intros Hall. revert i keys.
  induction Hall as [|v instID instances instIDs Hv _ IH]; intros i keys; simpl.
  - by rewrite app_nil_r.
  - rewrite Hv, IH. by rewrite <- app_assoc.
Qed.

Lemma instances_loop_Err (tenantID : string) (before after : list Instance)
    (v : Instance) (e : error) (i : nat) (keys : list string) :
  Forall (fun v' => is_Ok (synth.extractInstID v') = true) before ->
  synth.extractInstID v = Err e ->
  synth.instances_loop tenantID i (before ++ v :: after) keys
  = Err (fmt_Errorf_w "creating lookup key for instance[%d]: %w"
           [ArgD (Z.of_nat (i + length before))] e).
Proof.
  intros Hbefore Hv. revert i keys.
  induction Hbefore as [|v' before Hv' _ IH]; intros i keys; simpl.
  - rewrite Hv. by rewrite Nat.add_0_r.
  - destruct (synth.extractInstID v') as [instID|]; [|discriminate].
    rewrite IH. do 4 f_equal. lia.
Qed.

Lemma extractInstID_all (instances : list Instance) :
  (forall v, v ∈ instances -> is_Ok (Instance_GetUEID v) = true) ->
  exists ueids,
    Forall2 (fun v ueid => Instance_GetUEID v = Ok ueid) instances ueids.
Proof.
  induction instances as [|v instances IH]; intros Hall.
  - exists []. constructor.
  - destruct IH as [ueids Hrest].
    { intros v' Hv'. apply Hall. by right. }
    pose proof (Hall v ltac:(by left)) as Hv.
    destruct (Instance_GetUEID v) as [ueid|] eqn:Heq; [|discriminate].
    exists (ueid :: ueids). by constructor.
Qed.

(** [GenerateKey] on a query for trust anchors. *)
Lemma GenerateKey_trust_anchors (tenantID query : string) (q : Coserv.t) :
  Coserv_FromBase64Url query = Ok q ->
  Coserv.Query_ArtifactType (Coserv.Coserv_Query q) = ArtifactTypeTrustAnchors ->
  synth.GenerateKey tenantID query
  = synth.instances_loop tenantID 0
      (default [] (Coserv.Instances
                     (Coserv.Query_EnvironmentSelector (Coserv.Coserv_Query q))))
      [].
Proof.
  intros Hq Ht. unfold synth.GenerateKey. rewrite Hq, Ht.
  by destruct (Coserv.Instances _).
Qed.

(** X16.  For a query for trust anchors whose list of instance selectors
    is [instances]: if every selector has a UEID, key synthesis returns as
    many keys as there are selectors, the i-th being the trust-anchor key
    of the base64 text of the UEID of the i-th selector; if the i-th
    selector is the first without UEID, synthesis fails with the error for
    instance i, which wraps the extraction error and its cause. *)
Theorem X16_GenerateKey_instance_selector_order (tenantID query : string)
    (q : Coserv.t) (instances : list Instance) :
  Coserv_FromBase64Url query = Ok q ->
  Coserv.Query_ArtifactType (Coserv.Coserv_Query q) = ArtifactTypeTrustAnchors ->
  default [] (Coserv.Instances
                (Coserv.Query_EnvironmentSelector (Coserv.Coserv_Query q)))
  = instances ->
  ((forall v, v ∈ instances -> is_Ok (Instance_GetUEID v) = true) ->
   exists keys,
     synth.GenerateKey tenantID query = Ok keys
     /\ length keys = length instances
     /\ forall i v, instances !! i = Some v ->
          exists ueid,
            Instance_GetUEID v = Ok ueid
            /\ keys !! i
               = Some (arm_TaCoservLookupKey SchemeName tenantID
                         (base64_EncodeToString ueid)))
  /\ (forall i v e,
        instances !! i = Some v ->
        Instance_GetUEID v = Err e ->
        (forall j v', j < i -> instances !! j = Some v' ->
                      is_Ok (Instance_GetUEID v') = true) ->
        synth.GenerateKey tenantID query
        = Err (fmt_Errorf_w "creating lookup key for instance[%d]: %w"
                 [ArgD (Z.of_nat i)]
                 (fmt_Errorf_w
                    "could not extract implementation-id from instance-id: %w"
                    [] e))).
Proof.
  intros Hq Ht Hinstances.
  rewrite (GenerateKey_trust_anchors _ _ _ Hq Ht), Hinstances.
  split.
  - intros Hall. destruct (extractInstID_all _ Hall) as [ueids Hueids].
    exists (arm_TaCoservLookupKey SchemeName tenantID
              <$> (base64_EncodeToString <$> ueids)).
    split.
    { apply (instances_loop_Ok tenantID instances
               (base64_EncodeToString <$> ueids) 0 []).
      apply Forall2_fmap_r.
      eapply Forall2_impl; [exact Hueids|]. simpl. intros v ueid Hv.
      unfold synth.extractInstID. by rewrite Hv. }
    split; [rewrite !length_fmap; symmetry; by eapply Forall2_length|].
    intros i v Hi.
    destruct (Forall2_lookup_l _ _ _ _ _ Hueids Hi) as (ueid & Hid & Hv).
    exists ueid. split; [exact Hv|].
    by rewrite !list_lookup_fmap, Hid.
  - intros i v e Hi Hv Hbefore.
    rewrite <- (take_drop_middle _ _ _ Hi).
    rewrite instances_loop_Err
      with (e := fmt_Errorf_w
                   "could not extract implementation-id from instance-id: %w" [] e).
    + rewrite length_take, Nat.min_l; [reflexivity|].
      apply lookup_lt_Some in Hi. lia.
    + apply Forall_forall. intros v' Hv'.
      apply list_elem_of_lookup in Hv' as [j Hj].
      pose proof (lookup_lt_Some _ _ _ Hj) as Hlt.
      rewrite length_take in Hlt.
      rewrite lookup_take_lt in Hj by lia.
      pose proof (Hbefore j v' ltac:(lia) Hj) as Hok.
      unfold synth.extractInstID.
      destruct (Instance_GetUEID v'); [reflexivity | discriminate].
    + unfold synth.extractInstID. by rewrite Hv.
Qed.

(** X17.  Key synthesis reads the list that goes with the artifact type
    and no other: two queries for reference values with the same class
    selectors, or two queries for trust anchors with the same instance
    selectors, have the same outcome whatever their other list holds; and a
    query whose own list is absent or empty gives no key and no error, even
    when the other list is filled. *)
Theorem X17_GenerateKey_reads_one_list (tenantID query1 query2 : string)
    (q1 q2 : Coserv.t) :
  let s1 := Coserv.Query_EnvironmentSelector (Coserv.Coserv_Query q1) in
  let s2 := Coserv.Query_EnvironmentSelector (Coserv.Coserv_Query q2) in
  Coserv_FromBase64Url query1 = Ok q1 ->
  Coserv_FromBase64Url query2 = Ok q2 ->
  Coserv.Query_ArtifactType (Coserv.Coserv_Query q1)
  = Coserv.Query_ArtifactType (Coserv.Coserv_Query q2) ->
  (Coserv.Query_ArtifactType (Coserv.Coserv_Query q1) = ArtifactTypeReferenceValues ->
   (default [] (Coserv.Classes s1) = default [] (Coserv.Classes s2) ->
    synth.GenerateKey tenantID query1 = synth.GenerateKey tenantID query2)
   /\ (default [] (Coserv.Classes s1) = [] ->
       synth.GenerateKey tenantID query1 = Ok []))
  /\ (Coserv.Query_ArtifactType (Coserv.Coserv_Query q1) = ArtifactTypeTrustAnchors ->
      (default [] (Coserv.Instances s1) = default [] (Coserv.Instances s2) ->
       synth.GenerateKey tenantID query1 = synth.GenerateKey tenantID query2)
      /\ (default [] (Coserv.Instances s1) = [] ->
          synth.GenerateKey tenantID query1 = Ok [])).
Proof.
  intros s1 s2 Hq1 Hq2 Ht. split.
  - intros Hrv. rewrite (GenerateKey_reference_values _ _ _ Hq1 Hrv).
    rewrite Hrv in Ht. symmetry in Ht.
    rewrite (GenerateKey_reference_values _ _ _ Hq2 Ht). fold s1 s2.
    split; [by intros -> | by intros ->].
  - intros Hta. rewrite (GenerateKey_trust_anchors _ _ _ Hq1 Hta).
    rewrite Hta in Ht. symmetry in Ht.
    rewrite (GenerateKey_trust_anchors _ _ _ Hq2 Ht). fold s1 s2.
    split; [by intros -> | by intros ->].
Qed.

Context {S : Type} {st : Store.t (list string) S}.

(** An error of the loop over the class selectors, or over the instance
    selectors, is the error for one of their indices. *)
Lemma classes_loop_error (tenantID : string) (classes : list comid.Class)
    (i : nat) (keys : list string) (e : error) :
  synth.classes_loop tenantID i classes keys = Err e ->
  exists j w,
    i <= j < i + length classes
    /\ e = fmt_Errorf_w "creating lookup key for class[%d]: %w"
             [ArgD (Z.of_nat j)] w.
Proof.
  revert i keys. induction classes as [|c classes IH]; intros i keys; simpl.
  - discriminate.
  - destruct (synth.extractImplID c) as [implID|w]; simpl.
    + intros Hrest. destruct (IH _ _ Hrest) as (j & w & Hj & ->).
      exists j, w. split; [lia | reflexivity].
    + intros [= <-]. exists i, w. split; [lia | reflexivity].
Qed.

Lemma instances_loop_error (tenantID : string) (instances : list Instance)
    (i : nat) (keys : list string) (e : error) :
  synth.instances_loop tenantID i instances keys = Err e ->
  exists j w,
    i <= j < i + length instances
    /\ e = fmt_Errorf_w "creating lookup key for instance[%d]: %w"
             [ArgD (Z.of_nat j)] w.
Proof.
  revert i keys. induction instances as [|v instances IH]; intros i keys; simpl.
  - discriminate.
  - destruct (synth.extractInstID v) as [instID|w]; simpl.
    + intros Hrest. destruct (IH _ _ Hrest) as (j & w & Hj & ->).
      exists j, w. split; [lia | reflexivity].
    + intros [= <-]. exists i, w. split; [lia | reflexivity].
Qed.

(** X18.  Resolution ends before the call to the store when decoding or
    key synthesis fails: an error of the decoder is returned wrapped as a
    failure to parse the query, and, the query decoded, an error of key
    synthesis is returned wrapped as a failure to generate the key; in both
    cases no call to the [Get] of the store has been made, whatever the
    store.  The errors of key synthesis on a decoded query are three: the
    error for endorsed values, on a query of that type; the error for the
    index of a class selector, on a query for reference values; and the
    error for the index of an instance selector, on a query for trust
    anchors. *)
Theorem X18_GetEndorsements_fails_before_Get (ed : S)
    (tenantID coservQuery mediaType : string) :
  (forall e,
     Coserv_FromBase64Url coservQuery = Err e ->
     synth.GetEndorsements ed tenantID coservQuery mediaType
     = (Err (fmt_Errorf_w "failed to parse CoSERV query: %w" [] e), []))
  /\ (forall q e,
        Coserv_FromBase64Url coservQuery = Ok q ->
        synth.GenerateKey tenantID coservQuery = Err e ->
        synth.GetEndorsements ed tenantID coservQuery mediaType
        = (Err (fmt_Errorf_w "failed to generate key: %w" [] e), [])
        /\ let s := Coserv.Query_EnvironmentSelector (Coserv.Coserv_Query q) in
           match Coserv.Query_ArtifactType (Coserv.Coserv_Query q) with
           | ArtifactTypeEndorsedValues =>
               e = fmt_Errorf "CCA does not implement endorsed value queries" []
           | ArtifactTypeReferenceValues =>
               exists i w,
                 i < length (default [] (Coserv.Classes s))
                 /\ e = fmt_Errorf_w "creating lookup key for class[%d]: %w"
                          [ArgD (Z.of_nat i)] w
           | ArtifactTypeTrustAnchors =>
               exists i w,
                 i < length (default [] (Coserv.Instances s))
                 /\ e = fmt_Errorf_w "creating lookup key for instance[%d]: %w"
                          [ArgD (Z.of_nat i)] w
           | ArtifactTypeOther _ => False
           end).
Proof.
  split.
  - unfold synth.GetEndorsements. by intros e ->.
  - intros q e Hq Hkey. split.
    { unfold synth.GetEndorsements. by rewrite Hq, Hkey. }
    simpl.
    destruct (Coserv.Query_ArtifactType (Coserv.Coserv_Query q)) eqn:Ht.
    + unfold synth.GenerateKey in Hkey. rewrite Hq in Hkey. simpl in Hkey.
      rewrite Ht in Hkey. congruence.
    + rewrite (GenerateKey_trust_anchors _ _ _ Hq Ht) in Hkey.
      destruct (instances_loop_error _ _ _ _ _ Hkey) as (i & w & Hi & ->).
      exists i, w. split; [lia | reflexivity].
    + rewrite (GenerateKey_reference_values _ _ _ Hq Ht) in Hkey.
      destruct (classes_loop_error _ _ _ _ _ Hkey) as (i & w & Hi & ->).
      exists i, w. split; [lia | reflexivity].
    + unfold synth.GenerateKey in Hkey. rewrite Hq in Hkey. simpl in Hkey.
      rewrite Ht in Hkey. discriminate.
Qed.
End SynthMore.

Lemma X16_GenerateKey_instance_selector_order_witness :
  exists keys,
    synth.GenerateKey (corim := samples.corim) "0" "ta-two-instances" = Ok keys
    /\ length keys = 2.
Proof.
  destruct (X16_GenerateKey_instance_selector_order (corim := samples.corim)
              "0" "ta-two-instances" _ samples.two_instances
              eq_refl eq_refl eq_refl) as [Hkeys _].
  destruct Hkeys as (keys & Hgen & Hlen & _).
  - intros v Hv. apply list_elem_of_In in Hv.
    destruct Hv as [<-|[<-|[]]]; reflexivity.
  - exists keys. split; assumption.
Defined.

(** The second instance selector has no UEID. *)
Example GenerateKey_second_instance_without_ueid :
  synth.GenerateKey (corim := samples.corim) "0" "ta-second-instance-without-ueid"
  = Err (fmt_Errorf_w "creating lookup key for instance[%d]: %w" [ArgD 1]
           (fmt_Errorf_w "could not extract implementation-id from instance-id: %w"
              [] (lib_error "comid" "instance-id type is: *comid.TaggedUUID"))).
Proof. reflexivity. Qed.

Lemma X18_GetEndorsements_fails_before_Get_witness :
  synth.GetEndorsements (corim := samples.corim) (st := examples.postgres)
    examples.no_rows "0" "rv-second-class-without-id" api.EdApiMediaType
  = (Err (fmt_Errorf_w "failed to generate key: %w" []
            (fmt_Errorf_w "creating lookup key for class[%d]: %w" [ArgD 1]
               (errors_New "missing class-id"))),
     []).
Proof.
  exact (proj1 (proj2 (X18_GetEndorsements_fails_before_Get
                         (corim := samples.corim) (st := examples.postgres)
                         examples.no_rows
                         "0" "rv-second-class-without-id" api.EdApiMediaType)
                  _ _ eq_refl eq_refl)).
Defined.

Lemma X17_GenerateKey_reads_one_list_witness :
  synth.GenerateKey (corim := samples.corim) "0" "rv-two-classes"
  = synth.GenerateKey (corim := samples.corim) "0" "rv-two-classes-and-instances".
Proof.
  refine (proj1 (proj1 (X17_GenerateKey_reads_one_list (corim := samples.corim)
                          "0" "rv-two-classes" "rv-two-classes-and-instances" _ _
                          eq_refl eq_refl eq_refl) eq_refl) eq_refl).
Defined.

(** ** The handler: every response *)

Section HandlerMore.
Context {http : GoHTTP}.

Lemma CoservRequest_NotAcceptable (o : Handler.t) (next : nat) (c : Request.t) :
  NegotiateFormat (Request.Header_Accept c) [api.EdApiMediaType]
  <> api.EdApiMediaType ->
  api.CoservRequest o next c
  = api.reportProblem api.StatusNotAcceptable
      ["the only supported output format is application/coserv+cbor"].
Proof.
  intros Hoffer. unfold api.CoservRequest.
  destruct (decide (_ ≠ api.EdApiMediaType)); [reflexivity | contradiction].
Qed.

Lemma CoservRequest_missing_query (o : Handler.t) (next : nat) (c : Request.t) :
  NegotiateFormat (Request.Header_Accept c) [api.EdApiMediaType]
  = api.EdApiMediaType ->
  Request.Param_query c = "" ->
  api.CoservRequest o next c
  = api.reportProblem api.StatusBadRequest ["missing query parameter"].
Proof.
  intros Hoffer Hquery. unfold api.CoservRequest. rewrite Hoffer.
  destruct (decide (api.EdApiMediaType ≠ api.EdApiMediaType)); [done|].
  destruct (decide (Request.Param_query c = "")); [reflexivity | contradiction].
Qed.

Lemma CoservRequest_Ok (o : Handler.t) (next : nat) (c : Request.t) (res : bytes) :
  NegotiateFormat (Request.Header_Accept c) [api.EdApiMediaType]
  = api.EdApiMediaType ->
  Request.Param_query c <> "" ->
  Handler.EndorsementDistributor_GetEndorsements o api.tenantID
    (Request.Param_query c) (api.requested_mediaType (Request.Header_Accept c))
  = Ok res ->
  api.CoservRequest o next c
  = Response.mk api.StatusOK api.EdApiMediaType (data_body res).
Proof.
  intros Hoffer Hquery Hres. unfold api.CoservRequest. rewrite Hoffer.
  destruct (decide (api.EdApiMediaType ≠ api.EdApiMediaType)); [done|].
  destruct (decide (Request.Param_query c = "")); [contradiction|].
  by rewrite Hres.
Qed.

(** X19.  The status of the response tells what happened: 406 exactly
    when the negotiation does not give the media type of the service, 200
    exactly when it does, the query is not empty and resolution succeeds,
    and 400 otherwise.  A response other than 200 is a problem document
    whose status and title are those of the response; for a failed
    resolution its detail is the text of the error.  A response with
    status 200 carries the bytes resolution returned. *)
Theorem X19_CoservRequest_responses (o : Handler.t) (next : nat) (c : Request.t) :
  let response := api.CoservRequest o next c in
  let negotiated :=
    NegotiateFormat (Request.Header_Accept c) [api.EdApiMediaType]
    = api.EdApiMediaType in
  let resolution :=
    Handler.EndorsementDistributor_GetEndorsements o api.tenantID
      (Request.Param_query c)
      (api.requested_mediaType (Request.Header_Accept c)) in
  (Response.status response = api.StatusNotAcceptable <-> ~ negotiated)
  /\ (Response.status response = api.StatusOK
      <-> negotiated /\ Request.Param_query c <> "" /\ is_Ok resolution = true)
  /\ (Response.status response = api.StatusBadRequest
      <-> negotiated /\ (Request.Param_query c = "" \/ is_Ok resolution = false))
  /\ match Response.body response with
     | problem_json status title detail =>
         status = Response.status response
         /\ title = api.http_StatusText status
         /\ Response.Content_Type response = "application/problem+json"
         /\ (negotiated -> Request.Param_query c <> "" ->
             exists e, resolution = Err e /\ detail = Some (Error e))
     | data_body res =>
         resolution = Ok res
         /\ Response.status response = api.StatusOK
         /\ Response.Content_Type response = api.EdApiMediaType
     end.
Proof.
  intros response negotiated resolution. subst response negotiated.
  destruct (decide (NegotiateFormat (Request.Header_Accept c) [api.EdApiMediaType]
                    = api.EdApiMediaType)) as [Hoffer|Hoffer].
  2:{ rewrite (CoservRequest_NotAcceptable o next c Hoffer). simpl.
      split; [done|].
      split; [split; [discriminate | intros [? _]; contradiction]|].
      split; [split; [discriminate | intros [? _]; contradiction]|].
      repeat split; try reflexivity; contradiction. }
  destruct (decide (Request.Param_query c = "")) as [Hquery|Hquery].
  { rewrite (CoservRequest_missing_query o next c Hoffer Hquery). simpl.
    split; [split; [discriminate | intros Hno; contradiction]|].
    split; [split; [discriminate | intros (_ & ? & _); contradiction]|].
    split; [split; [intros _; split; [exact Hoffer | by left] | reflexivity]|].
    repeat split; try reflexivity; contradiction. }
  destruct resolution as [res|e] eqn:Hres; subst resolution.
  - rewrite (CoservRequest_Ok o next c res Hoffer Hquery Hres). simpl.
    split; [split; [discriminate | intros Hno; contradiction]|].
    split; [split; [intros _; by repeat split | reflexivity]|].
    split; [split; [discriminate | intros [_ [?|?]]; [contradiction | discriminate]]|].
    by repeat split.
  - rewrite (CoservRequest_Err o next c e Hoffer Hquery Hres). simpl.
    split; [split; [discriminate | intros Hno; contradiction]|].
    split; [split; [discriminate | intros (_ & _ & ?); discriminate]|].
    split; [split; [intros _; split; [exact Hoffer | by right] | reflexivity]|].
    repeat split; try reflexivity. intros _ _. by exists e.
Qed.
End HandlerMore.

(** ** Opening the store *)

(** The connection string. *)
Lemma NewPostgresStore_dsn (cfg : config.DatabaseConfig) :
  Sprintf "postgresql://%s:%s@%s:%d/%s?sslmode=%s"
    [ArgS (config.User cfg); ArgS (config.Password cfg);
     ArgS (config.Host cfg); ArgD (config.Port cfg);
     ArgS (config.Name cfg); ArgS (config.SSLMode cfg)]
  = "postgresql://" +:+ config.User cfg +:+ ":" +:+ config.Password cfg +:+ "@"
    +:+ config.Host cfg +:+ ":" +:+ pretty (config.Port cfg) +:+ "/"
    +:+ config.Name cfg +:+ "?sslmode=" +:+ config.SSLMode cfg.
Proof.
  unfold Sprintf. rewrite <- (append_nil_r (config.SSLMode cfg)) at 2.
  reflexivity.
Qed.

(** X20.  [NewPostgresStore] returns a store exactly when the pool is
    created, the ping is answered and the table is set up, each step being
    made only after the one before succeeded.  The pool is closed, once and
    as the last thing done, when a step after its creation fails; it is not
    closed when a store is returned, and there is no pool to close when the
    creation fails. *)
Theorem X20_NewPostgresStore_closes_pool_on_failure (server : Server.t)
    (cfg : config.DatabaseConfig) :
  let out := postgres.NewPostgresStore server cfg in
  let dsn :=
    "postgresql://" +:+ config.User cfg +:+ ":" +:+ config.Password cfg +:+ "@"
    +:+ config.Host cfg +:+ ":" +:+ pretty (config.Port cfg) +:+ "/"
    +:+ config.Name cfg +:+ "?sslmode=" +:+ config.SSLMode cfg in
  head out.2 = Some (pgxpool_New dsn)
  /\ (is_Ok out.1 = true
      <-> Server.New_error server dsn = None
          /\ Server.Ping_error server = None
          /\ Server.Exec_error server = None)
  /\ (is_Ok out.1 = true
      <-> (pool_Close ∉ out.2) /\ (pool_Exec_setupTable ∈ out.2))
  /\ (is_Ok out.1 = false ->
      Server.New_error server dsn = None ->
      exists before, out.2 = before ++ [pool_Close] /\ pool_Close ∉ before)
  /\ (Server.New_error server dsn <> None -> out.2 = [pgxpool_New dsn])
  /\ (pool_Exec_setupTable ∈ out.2 -> Server.Ping_error server = None)
  /\ (pool_Ping ∈ out.2 -> Server.New_error server dsn = None).
Proof.
  intros out dsn. subst out. unfold postgres.NewPostgresStore.
  rewrite (NewPostgresStore_dsn cfg). fold dsn.
  assert (Hin : forall (x : poolEvent) l, x ∈ l <-> In x l).
  { intros x l. apply list_elem_of_In. }
  destruct (Server.New_error server dsn) as [e|] eqn:Hnew; simpl.
  { split; [reflexivity|].
    split; [split; [discriminate | intros (? & _); discriminate]|].
    split; [split; [discriminate|]|].
    { intros [_ Hexec]. apply Hin in Hexec. simpl in Hexec.
      destruct Hexec as [?|[]]; discriminate. }
    split; [discriminate|]. split; [reflexivity|].
    split; intros Hx; apply Hin in Hx; simpl in Hx;
      destruct Hx as [?|[]]; discriminate. }
  destruct (Server.Ping_error server) as [e|] eqn:Hping; simpl.
  { split; [reflexivity|].
    split; [split; [discriminate | intros (_ & ? & _); discriminate]|].
    split; [split; [discriminate|]|].
    { intros [Hclose _]. exfalso. apply Hclose, Hin. simpl. tauto. }
    split.
    { intros _ _. exists [pgxpool_New dsn; pool_Ping]. split; [reflexivity|].
      intros Hx. apply Hin in Hx. simpl in Hx.
      destruct Hx as [?|[?|[]]]; discriminate. }
    split; [congruence|].
    split; [|reflexivity].
    intros Hx; apply Hin in Hx; simpl in Hx.
    destruct Hx as [?|[?|[?|[]]]]; discriminate. }
  unfold postgres.setupTable.
  destruct (Server.Exec_error server) as [e|] eqn:Hexec; simpl.
  { split; [reflexivity|].
    split; [split; [discriminate | intros (_ & _ & ?); discriminate]|].
    split; [split; [discriminate|]|].
    { intros [Hclose _]. exfalso. apply Hclose, Hin. simpl. tauto. }
    split.
    { intros _ _. exists [pgxpool_New dsn; pool_Ping; pool_Exec_setupTable].
      split; [reflexivity|].
      intros Hx. apply Hin in Hx. simpl in Hx.
      destruct Hx as [?|[?|[?|[]]]]; discriminate. }
    split; [congruence|]. by split. }
  split; [reflexivity|].
  split; [by split|].
  split.
  { split; [intros _|reflexivity]. split.
    - intros Hx. apply Hin in Hx. simpl in Hx.
      destruct Hx as [?|[?|[?|[]]]]; discriminate.
    - apply Hin. simpl. tauto. }
  split; [discriminate|]. split; [congruence|]. by split.
Qed.

(** ** The keys of package internal/coserv *)

(** X12.  For one tenant, one profile that is not empty and one artifact
    type, the key tells the selector hashes apart: two queries with the
    same key have the same hash. *)
Theorem X12_GenerateKey_tells_hashes_apart (tenantID : string) (c1 c2 : CoSERV.t) :
  CoSERV.Profile c1 <> "" ->
  CoSERV.Profile c1 = CoSERV.Profile c2 ->
  QueryObject.ArtifactType (CoSERV.Query c1)
  = QueryObject.ArtifactType (CoSERV.Query c2) ->
  coserv.GenerateKey c1 tenantID = coserv.GenerateKey c2 tenantID ->
  coserv.hash (QueryObject.EnvironmentSelector (CoSERV.Query c1))
  = coserv.hash (QueryObject.EnvironmentSelector (CoSERV.Query c2)).
Proof.
  intros Hne Hp Ht Hkey.
  rewrite (GenerateKey_Ok c1 tenantID Hne) in Hkey.
  rewrite (GenerateKey_Ok c2 tenantID) in Hkey by congruence.
  rewrite <- Hp, <- Ht in Hkey. injection Hkey as Hkey.
  do 7 apply (inj (String.append _)) in Hkey.
  by apply hex_inj.
Qed.

(** X13.  The key does not tell everything apart.  A tenant and a profile
    are joined by a slash, so a slash in either moves the border between
    them; an instance selector hashes as a class selector with the same
    identifier; and a query without selector hashes as one whose first
    class identifier is the text default. *)
Theorem X13_GenerateKey_collisions (tenant middle profile : string)
    (artifactType : Z) (es : EnvironmentSelector.t) :
  profile <> "" ->
  coserv.GenerateKey
    (CoSERV.mk (middle +:+ "/" +:+ profile) (QueryObject.mk artifactType es))
    tenant
  = coserv.GenerateKey
      (CoSERV.mk profile (QueryObject.mk artifactType es))
      (tenant +:+ "/" +:+ middle)
  /\ (forall id classes instances instances',
        coserv.hash
          (EnvironmentSelector.mk [] (InstanceSelector.mk id :: instances))
        = coserv.hash
            (EnvironmentSelector.mk (ClassSelector.mk id :: classes) instances'))
  /\ (forall classes instances,
        coserv.hash (EnvironmentSelector.mk [] [])
        = coserv.hash
            (EnvironmentSelector.mk
               (ClassSelector.mk (bytes_of_string "default") :: classes)
               instances)).
Proof.
  intros Hne. split; [|split; reflexivity].
  rewrite !GenerateKey_Ok; simpl CoSERV.Profile; simpl CoSERV.Query.
  - f_equal. rewrite !append_assoc. reflexivity.
  - exact Hne.
  - destruct middle; discriminate.
Qed.

Lemma X12_GenerateKey_tells_hashes_apart_witness :
  coserv.hash (QueryObject.EnvironmentSelector (CoSERV.Query examples.classes_a_b))
  = coserv.hash
      (QueryObject.EnvironmentSelector (CoSERV.Query examples.class_a_instance_c)).
Proof.
  apply (X12_GenerateKey_tells_hashes_apart "0" examples.classes_a_b
           examples.class_a_instance_c); [discriminate | reflexivity..].
Defined.

Lemma X13_GenerateKey_collisions_witness :
  coserv.GenerateKey
    (CoSERV.mk "b/p" (QueryObject.mk 2 (EnvironmentSelector.mk [] []))) "a"
  = coserv.GenerateKey
      (CoSERV.mk "p" (QueryObject.mk 2 (EnvironmentSelector.mk [] []))) "a/b".
Proof.
  refine (proj1 (X13_GenerateKey_collisions "a" "b" "p" 2
                   (EnvironmentSelector.mk [] []) _)).
  discriminate.
Defined.

(** ** Resolution (the revision on package internal/coserv) *)

Section DistributorProperties.
Context {enc : GoEncoding} {S : Type} {st : Store.t string S}.

(** A query decoded into a fresh receiver has no selector. *)
Lemma FromBase64Url_zero_selector (coservQuery : string) :
  QueryObject.EnvironmentSelector
    (CoSERV.Query (coserv.FromBase64Url CoSERV.zero coservQuery).2)
  = EnvironmentSelector.mk [] [].
Proof. by rewrite FromBase64Url_EnvironmentSelector. Qed.

(** The key of a decoded query with a profile. *)
Lemma GenerateKey_decoded (coservQuery tenantID : string) :
  let c := (coserv.FromBase64Url CoSERV.zero coservQuery).2 in
  CoSERV.Profile c <> "" ->
  coserv.GenerateKey c tenantID
  = Ok ("coserv://" +:+ tenantID +:+ "/" +:+ CoSERV.Profile c +:+ "/"
        +:+ pretty (QueryObject.ArtifactType (CoSERV.Query c))
        +:+ "/64656661756c74").
Proof.
  intros c Hne. rewrite (GenerateKey_Ok c tenantID Hne).
  subst c. by rewrite FromBase64Url_zero_selector.
Qed.

(** The outcome of resolution, stage by stage. *)
Lemma GetEndorsements_stages (ed : S) (tenantID coservQuery mediaType : string) :
  let decoded := coserv.FromBase64Url CoSERV.zero coservQuery in
  let key :=
    "coserv://" +:+ tenantID +:+ "/" +:+ CoSERV.Profile decoded.2 +:+ "/"
    +:+ pretty (QueryObject.ArtifactType (CoSERV.Query decoded.2))
    +:+ "/64656661756c74" in
  store.GetEndorsements ed tenantID coservQuery mediaType
  = match decoded.1 with
    | Some err => Err (fmt_Errorf_w "failed to parse CoSERV query: %w" [] err)
    | None =>
        if decide (CoSERV.Profile decoded.2 = "")
        then Err (fmt_Errorf_w "failed to generate key: %w" []
                    (fmt_Errorf "profile not found in CoSERV query" []))
        else
          match Store.Get ed key with
          | Err e => Err (fmt_Errorf_w "failed to get artifacts: %w" [] e)
          | Ok artifacts =>
              match json_Marshal_result
                      (coserv.CreateResult (CoSERV.Profile decoded.2)
                         (QueryObject.ArtifactType (CoSERV.Query decoded.2))
                         artifacts) with
              | Err e => Err (fmt_Errorf_w "failed to encode result: %w" [] e)
              | Ok resultData => Ok resultData
              end
          end
    end.
Proof.
  intros decoded key. subst key. unfold store.GetEndorsements.
  pose proof (GenerateKey_decoded coservQuery tenantID) as Hkey.
  fold decoded in Hkey |- *. simpl in Hkey.
  destruct decoded as [[err|] c]; simpl in *; [reflexivity|].
  unfold coserv.GetProfile, coserv.ToCBOR.
  destruct (decide (CoSERV.Profile c = "")) as [Hempty|Hne].
  - unfold coserv.GenerateKey, coserv.GetProfile.
    by destruct (decide (CoSERV.Profile c = "")).
  - rewrite (Hkey Hne). destruct (Store.Get ed _); reflexivity.
Qed.

(** X14.  Resolution succeeds exactly when the query decodes to a profile
    that is not empty, the store has artifacts under the key made of the
    tenant, that profile, the artifact type and the hexadecimal of the text
    default, and the result built from them marshals.  The error for a
    profile that cannot be got after the fetch is never returned. *)
Theorem X14_GetEndorsements_success (ed : S)
    (tenantID coservQuery mediaType : string) :
  let out := store.GetEndorsements ed tenantID coservQuery mediaType in
  let decoded := coserv.FromBase64Url CoSERV.zero coservQuery in
  let key :=
    "coserv://" +:+ tenantID +:+ "/" +:+ CoSERV.Profile decoded.2 +:+ "/"
    +:+ pretty (QueryObject.ArtifactType (CoSERV.Query decoded.2))
    +:+ "/64656661756c74" in
  (forall data,
      out = Ok data
      <-> decoded.1 = None
          /\ CoSERV.Profile decoded.2 <> ""
          /\ exists artifacts,
               Store.Get ed key = Ok artifacts
               /\ json_Marshal_result
                    (coserv.CreateResult (CoSERV.Profile decoded.2)
                       (QueryObject.ArtifactType (CoSERV.Query decoded.2))
                       artifacts)
                  = Ok data)
  /\ (forall e, out <> Err (fmt_Errorf_w "failed to get profile: %w" [] e)).
Proof.
  intros out decoded key. subst out.
  rewrite (GetEndorsements_stages ed tenantID coservQuery mediaType).
  fold decoded key.
  destruct decoded.1 as [err|].
  { split; [|discriminate]. intros data. split; [discriminate|].
    intros (? & _); discriminate. }
  destruct (decide (CoSERV.Profile decoded.2 = "")) as [Hempty|Hne].
  { split; [|discriminate]. intros data. split; [discriminate|].
    intros (_ & ? & _). contradiction. }
  destruct (Store.Get ed key) as [artifacts|e].
  - destruct (json_Marshal_result _) as [resultData|e] eqn:Hcbor.
    + split; [|discriminate]. intros data. split.
      * intros [= <-]. split; [reflexivity|]. split; [exact Hne|].
        exists artifacts. by split.
      * intros (_ & _ & artifacts' & [= <-] & Hdata). congruence.
    + split; [|discriminate]. intros data. split; [discriminate|].
      intros (_ & _ & artifacts' & [= <-] & Hdata). congruence.
  - split; [|discriminate]. intros data. split; [discriminate|].
    intros (_ & _ & artifacts' & ? & _). discriminate.
Qed.

(** X21.  The errors of resolution and when each is returned: the parse
    error wraps the error of decoding; the error of key generation wraps
    the error for a missing profile and is returned when the query decodes
    to an empty profile; the fetch error wraps the error of the store; the
    encoding error wraps the error of marshalling.  There is no other. *)
Theorem X21_GetEndorsements_errors (ed : S)
    (tenantID coservQuery mediaType : string) (e : error) :
  let out := store.GetEndorsements ed tenantID coservQuery mediaType in
  let decoded := coserv.FromBase64Url CoSERV.zero coservQuery in
  let key :=
    "coserv://" +:+ tenantID +:+ "/" +:+ CoSERV.Profile decoded.2 +:+ "/"
    +:+ pretty (QueryObject.ArtifactType (CoSERV.Query decoded.2))
    +:+ "/64656661756c74" in
  (out = Err e <->
   (exists err, decoded.1 = Some err
                /\ e = fmt_Errorf_w "failed to parse CoSERV query: %w" [] err)
   \/ (decoded.1 = None /\ CoSERV.Profile decoded.2 = ""
       /\ e = fmt_Errorf_w "failed to generate key: %w" []
                (fmt_Errorf "profile not found in CoSERV query" []))
   \/ (exists err, decoded.1 = None /\ CoSERV.Profile decoded.2 <> ""
                   /\ Store.Get ed key = Err err
                   /\ e = fmt_Errorf_w "failed to get artifacts: %w" [] err)
   \/ (exists artifacts err,
          decoded.1 = None /\ CoSERV.Profile decoded.2 <> ""
          /\ Store.Get ed key = Ok artifacts
          /\ json_Marshal_result
               (coserv.CreateResult (CoSERV.Profile decoded.2)
                  (QueryObject.ArtifactType (CoSERV.Query decoded.2)) artifacts)
             = Err err
          /\ e = fmt_Errorf_w "failed to encode result: %w" [] err)).
Proof.
  intros out decoded key. subst out.
  rewrite (GetEndorsements_stages ed tenantID coservQuery mediaType).
  fold decoded key.
  destruct decoded.1 as [err|].
  { split.
    - intros [= <-]. left. by exists err.
    - intros [(err' & [= <-] & ->)|[(? & _)|[(? & ? & _)|(? & ? & ? & _)]]];
        [reflexivity | discriminate..]. }
  destruct (decide (CoSERV.Profile decoded.2 = "")) as [Hempty|Hne].
  { split.
    - intros [= <-]. right. left. by repeat split.
    - intros [(? & ? & _)|[(_ & _ & ->)|[(? & _ & ? & _)|(? & ? & _ & ? & _)]]];
        [discriminate | reflexivity | contradiction..]. }
  destruct (Store.Get ed key) as [artifacts|err] eqn:Hget.
  - destruct (json_Marshal_result _) as [resultData|err] eqn:Hcbor.
    + split; [discriminate|].
      intros [(? & ? & _)|[(_ & ? & _)|[(? & _ & _ & ? & _)
                        |(a & err & _ & _ & [= <-] & Herr & _)]]];
        [discriminate | contradiction | discriminate | congruence].
    + split.
      * intros [= <-]. do 3 right. exists artifacts, err. by repeat split.
      * intros [(? & ? & _)|[(_ & ? & _)|[(? & _ & _ & ? & _)
                          |(a & err' & _ & _ & [= <-] & Herr & ->)]]];
          [discriminate | contradiction | discriminate | congruence].
  - split.
    + intros [= <-]. right. right. left. exists err. by repeat split.
    + intros [(? & ? & _)|[(_ & ? & _)|[(err' & _ & _ & [= <-] & ->)
                        |(? & ? & _ & _ & ? & _)]]];
        [discriminate | contradiction | reflexivity | discriminate].
Qed.

(** X22.  The handler over this distributor answers 200 exactly when the
    negotiation succeeds, the query is not empty and decodes to a profile
    that is not empty, the store has artifacts under the key of tenant 0,
    that profile and that artifact type, and the result marshals; the body
    is then the marshalled result of those artifacts. *)
Theorem X22_CoservRequest_end_to_end {http : GoHTTP} (ed : S) (next : nat)
    (c : Request.t) :
  let response :=
    api.CoservRequest (Handler.mk (store.GetEndorsements ed)) next c in
  let decoded := coserv.FromBase64Url CoSERV.zero (Request.Param_query c) in
  let key :=
    "coserv://0/" +:+ CoSERV.Profile decoded.2 +:+ "/"
    +:+ pretty (QueryObject.ArtifactType (CoSERV.Query decoded.2))
    +:+ "/64656661756c74" in
  Response.status response = api.StatusOK
  <-> NegotiateFormat (Request.Header_Accept c) [api.EdApiMediaType]
      = api.EdApiMediaType
      /\ Request.Param_query c <> ""
      /\ decoded.1 = None
      /\ CoSERV.Profile decoded.2 <> ""
      /\ exists artifacts data,
           Store.Get ed key = Ok artifacts
           /\ json_Marshal_result
                (coserv.CreateResult (CoSERV.Profile decoded.2)
                   (QueryObject.ArtifactType (CoSERV.Query decoded.2)) artifacts)
              = Ok data
           /\ Response.body response = data_body data.
Proof.
  intros response decoded key. subst response.
  set (o := Handler.mk (store.GetEndorsements ed)).
  pose proof (GetEndorsements_stages ed api.tenantID (Request.Param_query c)
                (api.requested_mediaType (Request.Header_Accept c))) as Hstages.
  simpl in Hstages. fold decoded in Hstages.
  change ("coserv://" +:+ api.tenantID +:+ "/" +:+ CoSERV.Profile decoded.2 +:+ "/"
          +:+ pretty (QueryObject.ArtifactType (CoSERV.Query decoded.2))
          +:+ "/64656661756c74") with key in Hstages.
  destruct (decide (NegotiateFormat (Request.Header_Accept c) [api.EdApiMediaType]
                    = api.EdApiMediaType)) as [Hoffer|Hoffer].
  2:{ rewrite (CoservRequest_NotAcceptable o next c Hoffer). simpl.
      split; [discriminate | intros (? & _); contradiction]. }
  destruct (decide (Request.Param_query c = "")) as [Hquery|Hquery].
  { rewrite (CoservRequest_missing_query o next c Hoffer Hquery). simpl.
    split; [discriminate | intros (_ & ? & _); contradiction]. }
  destruct (store.GetEndorsements ed api.tenantID (Request.Param_query c)
              (api.requested_mediaType (Request.Header_Accept c)))
    as [res|e] eqn:Hres.
  - rewrite (CoservRequest_Ok o next c res Hoffer Hquery Hres). simpl.
    split; [intros _ | reflexivity].
    split; [exact Hoffer|]. split; [exact Hquery|].
    destruct decoded.1; [discriminate|]. split; [reflexivity|].
    destruct (decide (CoSERV.Profile decoded.2 = "")); [discriminate|].
    split; [assumption|].
    destruct (Store.Get ed key) as [artifacts|]; [|discriminate].
    exists artifacts, res.
    destruct (json_Marshal_result _); [|discriminate].
    injection Hstages as <-. by repeat split.
  - rewrite (CoservRequest_Err o next c e Hoffer Hquery Hres). simpl.
    split; [discriminate|].
    intros (_ & _ & Hd & Hp & artifacts & data & Hget & Hdata & _).
    rewrite Hd in Hstages.
    destruct (decide (CoSERV.Profile decoded.2 = "")); [contradiction|].
    rewrite Hget, Hdata in Hstages. discriminate.
Qed.

(** X15.  Resolution reads of a query its profile and its artifact type
    only: two query texts that decode to the same profile and the same
    artifact type have the same outcome, whatever environment selectors
    their documents carry and whatever media type is asked for. *)
Theorem X15_GetEndorsements_ignores_selector (ed : S)
    (tenantID query1 query2 mediaType1 mediaType2 : string) :
  let decoded1 := coserv.FromBase64Url CoSERV.zero query1 in
  let decoded2 := coserv.FromBase64Url CoSERV.zero query2 in
  decoded1.1 = None ->
  decoded2.1 = None ->
  CoSERV.Profile decoded1.2 = CoSERV.Profile decoded2.2 ->
  QueryObject.ArtifactType (CoSERV.Query decoded1.2)
  = QueryObject.ArtifactType (CoSERV.Query decoded2.2) ->
  store.GetEndorsements ed tenantID query1 mediaType1
  = store.GetEndorsements ed tenantID query2 mediaType2.
Proof.
  intros decoded1 decoded2 H1 H2 Hp Ht.
  assert (Heq : decoded1 = decoded2).
  { pose proof (FromBase64Url_zero_selector query1) as Hs1.
    pose proof (FromBase64Url_zero_selector query2) as Hs2.
    fold decoded1 in Hs1. fold decoded2 in Hs2.
    destruct decoded1 as [e1 [p1 [t1 s1]]], decoded2 as [e2 [p2 [t2 s2]]].
    simpl in *. congruence. }
  unfold store.GetEndorsements. fold decoded1 decoded2. by rewrite Heq.
Qed.
End DistributorProperties.

Lemma X15_GetEndorsements_ignores_selector_witness :
  store.GetEndorsements (enc := goref.encoding) (st := examples.postgres)
    examples.one_row "0" examples.rv_query api.EdApiMediaType
  = store.GetEndorsements (enc := goref.encoding) (st := examples.postgres)
      examples.one_row "0" samples.rv_query_without_selector api.EdApiMediaType.
Proof.
  apply (X15_GetEndorsements_ignores_selector (enc := goref.encoding)
           (st := examples.postgres) examples.one_row "0" examples.rv_query
           samples.rv_query_without_selector);
    vm_compute; reflexivity.
Defined.
